(** * drs-listener: the SNS notification router ([src/router.ts])

    A shallow embedding of [receiveRequest] and [validate] and of the
    fragment of JavaScript they rely on: JSON values, truthiness, strict
    equality against primitives, property access (which faults on
    [undefined] and [null]), the shared [missingHandlerError] template and
    the callbacks of the handler set, which are recorded as a trace of
    events.  The signature validator, the HTTP client and [JSON.parse] are
    external collaborators and are taken as an environment. *)

From Stdlib Require Import String List Bool ZArith.
From Stdlib Require Import Floats.PrimFloat.
Import ListNotations.
Open Scope string_scope.

(** ** JavaScript values *)

(** The values [JSON.parse], the validator and the HTTP client hand to the
    router.  Numbers are IEEE doubles, objects are association lists (the
    first binding of a key is the one a property access sees). *)
#[local] Set Warnings "-register-all".
Inductive JSValue : Type :=
| JUndefined
| JNull
| JBool (b : bool)
| JNum (f : float)
| JStr (s : string)
| JArr (elems : list JSValue)
| JObj (props : list (string * JSValue)).

(** What a faulting property access raises. [TypeError k]: property [k] was
    read from [undefined] or [null]. *)
Inductive Exn : Type :=
| TypeError (reading : string).

(** [if (v)], [v ? a : b], [v && w]: JavaScript's ToBoolean. *)
Definition truthy (v : JSValue) : bool :=
  match v with
  | JUndefined | JNull => false
  | JBool b => b
  | JNum f => negb (PrimFloat.eqb f 0%float || PrimFloat.is_nan f)
  | JStr s => negb (s =? "")
  | JArr _ | JObj _ => true
  end.

Fixpoint lookup (props : list (string * JSValue)) (k : string) : JSValue :=
  match props with
  | [] => JUndefined
  | (k', v) :: rest => if k' =? k then v else lookup rest k
  end.

(** [v.k] for the property names the router reads, none of which is an
    inherited property of a string, number, boolean, array or plain object:
    a fault on [undefined] and [null], the own property on an object,
    [undefined] on anything else. *)
Definition get (v : JSValue) (k : string) : JSValue + Exn :=
  match v with
  | JUndefined | JNull => inr (TypeError k)
  | JObj props => inl (lookup props k)
  | _ => inl JUndefined
  end.

(** [v.k1.k2...], read left to right: the first read of [undefined] or
    [null] faults. *)
Fixpoint get_path (v : JSValue) (ks : list string) : JSValue + Exn :=
  match ks with
  | [] => inl v
  | k :: rest =>
      match get v k with
      | inl x => get_path x rest
      | inr e => inr e
      end
  end.

(** Sequencing of reads that may fault. *)
Definition bindE {A B} (r : A + Exn) (f : A -> B + Exn) : B + Exn :=
  match r with
  | inl a => f a
  | inr e => inr e
  end.

Notation "x <-! r ;; k" := (bindE r (fun x => k))
  (at level 61, r at next level, right associativity).

(** [v === "s"] *)
Definition strict_eq_string (v : JSValue) (s : string) : bool :=
  match v with
  | JStr s' => s' =? s
  | _ => false
  end.

(** [v === n] for a number literal [n] *)
Definition strict_eq_number (v : JSValue) (n : float) : bool :=
  match v with
  | JNum f => PrimFloat.eqb f n
  | _ => false
  end.

(** [v === null] *)
Definition strict_eq_null (v : JSValue) : bool :=
  match v with
  | JNull => true
  | _ => false
  end.

(** [l.indexOf(v)] on an array of string literals: the first index whose
    element is strictly equal to [v], else -1. *)
Fixpoint indexOf_from (l : list string) (v : JSValue) (i : Z) : Z :=
  match l with
  | [] => (-1)%Z
  | s :: rest => if strict_eq_string v s then i else indexOf_from rest v (i + 1)%Z
  end.

Definition indexOf (l : list string) (v : JSValue) : Z := indexOf_from l v 0%Z.

(** ** The data model of [router.ts] *)

(** [IBodySNS] (lines 18-30). *)
Record IBodySNS : Type := {
  Type_ : string;
  MessageId : string;
  TopicArn : string;
  Subject : string;
  Message : string;
  Timestamp : string;
  SignatureVersion : string;
  Signature : string;
  SigningCertURL : string;
  UnsubscribeURL : string;
  SubscribeURL : option string
}.

(** [IOrderInfo] (lines 35-39).  The fields hold whatever the payload held:
    the interface's [string] is not checked at run time. *)
Record IOrderInfo : Type := {
  instanceId : JSValue;
  slotId : JSValue;
  productInfo : JSValue
}.

(** The shapes the router stores in [IError.raw]. *)
Inductive Raw : Type :=
| RawValue (v : JSValue)                      (* raw: err / raw: er *)
| RawBody (parsed : IBodySNS)                 (* raw: parsed *)
| RawConfirm (err resp body : JSValue)        (* raw: {err, resp, body} *)
| RawMessage (message : JSValue)              (* raw: {message: ...} *)
| RawHandler (handler : string).              (* raw: {handler: ...} *)

(** [IError] (lines 9-13). *)
Record IError : Type := {
  reason : string;
  code : option string;
  raw : Raw
}.

(** [IHandlers] (lines 54-73): which optional callbacks the caller defined.
    [onError] is a required member of the interface, and [receiveRequest]
    calls it without a test: there it needs no flag. *)
Record IHandlers : Type := {
  onOnlyValidateMessage : bool;
  onNonDRSMessage : bool;
  onDeviceDeregistered : bool;
  onDeviceRegistered : bool;
  onItemShippedNotification : bool;
  onOrderCancelled : bool;
  onOrderPlaced : bool;
  onSubscriptionChanged : bool
}.

(** The handler set as [validate] meets it at run time.  [validate] tests
    [handlers.onError] before it calls it (line 297), so a set that lacks
    [onError], which the interface forbids and JavaScript allows, is an
    input it tells apart: [onError] says whether that member is there,
    [members] holds the optional ones. *)
Record HandlersObject : Type := {
  onError : bool;
  members : IHandlers
}.

(** [handlers.onOnlyValidateMessage] as a condition. *)
Definition has_onOnlyValidateMessage (h : HandlersObject) : bool :=
  onOnlyValidateMessage (members h).

(** [knownMessageTypes] (lines 78-84). *)
Definition knownMessageTypes : list string :=
  [ "DeviceDeregisteredNotification";
    "DeviceRegisteredNotification";
    "ItemShippedNotification";
    "OrderCancelledNotification";
    "OrderPlacedNotification";
    "SubscriptionChangedNotification" ].

(** [errorCodes] (lines 89-97). *)
Module errorCodes.
Definition invalid_json := "we could not parse the json of the message".
Definition invalid_signature := "invalid signature for the incoming message".
Definition missing_handler := "missing the handler to handle that notification".
Definition not_drs :=
  "this is not a DRS message, we placed it back into the raw property".
Definition unknown_message := "unknown message type received".
Definition invalid_subscription_request :=
  "could not confirm subscription due to malformed object or missing url".
Definition invalid_subscription_request_response :=
  "could not confirm the subscription due to a remote error".
End errorCodes.

(** ** Observable events *)

(** Every call the router makes to the outside: a callback of the handler
    set with the arguments it received, the outbound GET, and the plain
    callback of [validate].  The callbacks belong to the caller: what they
    do, and whether they return, is outside the router. *)
Inductive Event : Type :=
| Call_onError (error : IError)
| Call_onOnlyValidateMessage (message : IBodySNS)
| Call_onNonDRSMessage (message : IBodySNS)
| Call_onDeviceDeregistered (customerId modelId serialNumber raw : JSValue)
| Call_onDeviceRegistered (customerId modelId serialNumber raw : JSValue)
| Call_onItemShippedNotification
    (customerId modelId serialNumber : JSValue) (orderInfo : IOrderInfo) (raw : JSValue)
| Call_onOrderCancelled
    (customerId modelId serialNumber : JSValue) (orderInfo : IOrderInfo) (raw : JSValue)
| Call_onOrderPlaced
    (customerId modelId serialNumber : JSValue) (orderInfo : IOrderInfo) (raw : JSValue)
| Call_onSubscriptionChanged
    (customerId modelId serialNumber subscriptionInfo raw : JSValue)
| Call_request (url : string)
| Call_callback (err : option IError) (message : IBodySNS).

(** ** The external collaborators *)

Record Env : Type := {
  (** [validator.validate(body, cb)]: the [(err, parsed)] it calls [cb] with. *)
  validator_validate : IBodySNS -> JSValue * IBodySNS;
  (** [request(url, {}, cb)]: the [(error, response, body)] it calls [cb] with. *)
  request : string -> JSValue * JSValue * JSValue;
  (** [JSON.parse(s)]: the parsed value, or the exception it throws. *)
  JSON_parse : string -> JSValue + JSValue
}.

(** ** Statements with state, early return and faults *)

(** The state one callback runs in: the [raw.handler] field of the
    module-level [missingHandlerError] object (lines 100-104), shared by all
    dispatch calls, and the events so far. *)
Record State : Type := {
  missingHandlerError_handler : string;
  trace : list Event
}.

(** How a block of statements ends: it falls through with a value, it
    executed [return], or it threw. *)
Inductive Step (A : Type) : Type :=
| Next (a : A)
| Returned
| Thrown (e : Exn).
Arguments Next {A} a.
Arguments Returned {A}.
Arguments Thrown {A} e.

Definition M (A : Type) : Type := State -> State * Step A.

Definition ret {A} (a : A) : M A := fun s => (s, Next a).

Definition bind {A B} (m : M A) (f : A -> M B) : M B :=
  fun s =>
    match m s with
    | (s', Next a) => f a s'
    | (s', Returned) => (s', Returned)
    | (s', Thrown e) => (s', Thrown e)
    end.

Notation "x <- m ;; k" := (bind m (fun x => k))
  (at level 61, m at next level, right associativity).
Notation "m ;; k" := (bind m (fun _ => k))
  (at level 61, right associativity).

(** [return f(...)]: the value is dropped by the caller of the callback. *)
Definition return_ {A} : M A := fun s => (s, Returned).

Definition throw {A} (e : Exn) : M A := fun s => (s, Thrown e).

(** Appending one event to the trace of a state. *)
Definition record (s : State) (ev : Event) : State :=
  {| missingHandlerError_handler := missingHandlerError_handler s;
     trace := trace s ++ [ev] |}.

Definition call (ev : Event) : M unit := fun s => (record s ev, Next tt).

(** A property read as a statement: the value, or the fault. *)
Definition lift {A} (r : A + Exn) : M A :=
  match r with
  | inl x => ret x
  | inr e => throw e
  end.

(** [v.k] as a statement. *)
Definition prop (v : JSValue) (k : string) : M JSValue := lift (get v k).

(** [v.k1.k2...] as a statement. *)
Definition path (v : JSValue) (ks : list string) : M JSValue := lift (get_path v ks).

(** [if (c) { body }] with no else branch. *)
Definition when (c : bool) (body : M unit) : M unit :=
  if c then body else ret tt.

(** [missingHandlerError.raw.handler = name] *)
Definition set_missing_handler (name : string) : M unit :=
  fun s =>
    ({| missingHandlerError_handler := name; trace := trace s |}, Next tt).

(** [missingHandlerError] as it reads while [raw.handler] holds [name]. *)
Definition missing_handler_error (name : string) : IError :=
  {| code := Some "missing_handler";
     reason := errorCodes.missing_handler;
     raw := RawHandler name |}.

(** Reading [missingHandlerError] at the moment it is passed on. *)
Definition missingHandlerError : M IError :=
  fun s => (s, Next (missing_handler_error (missingHandlerError_handler s))).

(** ** The arguments built for the handlers *)

(** [message.orderInfo.k ? message.orderInfo.k : ""] *)
Definition orderInfo_field (message : JSValue) (k : string) : JSValue + Exn :=
  v <-! get_path message ["orderInfo"; k] ;;
  if truthy v then get_path message ["orderInfo"; k] else inl (JStr "").

(** The [orderInfo] literal of lines 226-230 and 250-254. *)
Definition build_orderInfo (message : JSValue) : IOrderInfo + Exn :=
  i <-! orderInfo_field message "instanceId" ;;
  s <-! orderInfo_field message "slotId" ;;
  p <-! get_path message ["orderInfo"; "productInfo"] ;;
  inl {| instanceId := i; slotId := s; productInfo := p |}.

(** The [orderInfo] literal of lines 238-242. *)
Definition build_orderInfo_cancelled (message : JSValue) : IOrderInfo + Exn :=
  i <-! orderInfo_field message "instanceId" ;;
  s <-! orderInfo_field message "slotId" ;;
  inl {| instanceId := i; slotId := s; productInfo := JArr [] |}.

(** Lines 262-263:
    [(message.subscriptionInfo ? message.subscriptionInfo : {}).slotsSubscriptionStatus] *)
Definition slotsSubscriptionStatus (message : JSValue) : JSValue + Exn :=
  s <-! get message "subscriptionInfo" ;;
  get (if truthy s then s else JObj []) "slotsSubscriptionStatus".

(** The four fields of lines 203-206. *)
Record Fields : Type := {
  serialNumber : JSValue;
  modelId : JSValue;
  messageType : JSValue;
  customerId : JSValue
}.

(** Lines 203-206, read in that order. *)
Definition extract (message : JSValue) : Fields + Exn :=
  serialNumber <-! get_path message ["deviceInfo"; "deviceIdentifier"; "serialNumber"] ;;
  modelId <-! get_path message ["deviceInfo"; "productIdentifier"; "modelId"] ;;
  messageType <-! get_path message ["notificationInfo"; "notificationType"] ;;
  customerId <-! get_path message ["customerInfo"; "directedCustomerId"] ;;
  inl {| serialNumber := serialNumber; modelId := modelId;
         messageType := messageType; customerId := customerId |}.

(** Line 127: [parsed.SubscribeURL ? parsed.SubscribeURL : ""] *)
Definition confirmation_url (parsed : IBodySNS) : string :=
  match SubscribeURL parsed with
  | Some u => if negb (u =? "") then u else ""
  | None => ""
  end.

(** ** [receiveRequest] (lines 111-269) *)

Section Router.

Variable env : Env.
Variable handlers : IHandlers.

(** [return handlers.onError(error)] *)
Definition return_onError {A} (error : IError) : M A :=
  call (Call_onError error) ;; return_.

(** Lines 137-150, the callback handed to [request].  [err] is the
    variable of the enclosing validator callback. *)
Definition confirm_callback (err confirmErr confirmResponse confirmBody : JSValue)
  : M unit :=
  failed <- (if negb (strict_eq_null err) then ret true
             else statusCode <- prop confirmResponse "statusCode" ;;
                  ret (negb (strict_eq_number statusCode 200%float))) ;;
  when failed
    (return_onError
       {| code := Some "invalid_subscription_request_response";
          reason := errorCodes.invalid_subscription_request_response;
          raw := RawConfirm confirmErr confirmResponse confirmBody |}).

(** Lines 126-151. *)
Definition confirm_subscription (err : JSValue) (parsed : IBodySNS) : M unit :=
  when (Type_ parsed =? "SubscriptionConfirmation")
    (let url := confirmation_url parsed in
     when (url =? "")
       (return_onError
          {| code := Some "invalid_subscription_request";
             reason := errorCodes.invalid_subscription_request;
             raw := RawBody parsed |}) ;;
     call (Call_request url) ;;
     (let '(confirmErr, confirmResponse, confirmBody) := request env url in
      confirm_callback err confirmErr confirmResponse confirmBody) ;;
     return_).

(** Lines 154-164. *)
Definition parse_message (parsed : IBodySNS) : M JSValue :=
  match JSON_parse env (Message parsed) with
  | inl message => ret message
  | inr er =>
      return_onError
        {| code := Some "invalid_json";
           reason := errorCodes.invalid_json;
           raw := RawValue er |}
  end.

(** [message.k && message.k.deviceInfo] as a condition. *)
Definition nested_deviceInfo (message : JSValue) (k : string) : M bool :=
  sub <- prop message k ;;
  if truthy sub then deviceInfo <- prop sub "deviceInfo" ;; ret (truthy deviceInfo)
  else ret false.

(** [message.notificationInfo && message.notificationInfo.notificationType]
    as a condition. *)
Definition has_notificationType (message : JSValue) : M bool :=
  notificationInfo <- prop message "notificationInfo" ;;
  if truthy notificationInfo
  then notificationType <- prop notificationInfo "notificationType" ;;
       ret (truthy notificationType)
  else ret false.

(** Lines 169-200: the value of [message] after the chain. *)
Definition unwrap (parsed : IBodySNS) (message : JSValue) : M JSValue :=
  c <- nested_deviceInfo message "default" ;;
  if c then prop message "default" else
  c <- nested_deviceInfo message "email" ;;
  if c then prop message "email" else
  c <- nested_deviceInfo message "http" ;;
  if c then prop message "http" else
  c <- nested_deviceInfo message "https" ;;
  if c then prop message "https" else
  c <- has_notificationType message ;;
  if c then
    notificationType <- path message ["notificationInfo"; "notificationType"] ;;
    when (indexOf knownMessageTypes notificationType =? -1)%Z
      (return_onError
         {| code := Some "unknown_message";
            reason := errorCodes.unknown_message;
            raw := RawMessage notificationType |}) ;;
    ret message
  else
    when (onNonDRSMessage handlers)
      (call (Call_onNonDRSMessage parsed) ;; return_) ;;
    return_onError
      {| code := Some "not_drs";
         reason := errorCodes.not_drs;
         raw := RawBody parsed |}.

(** [missingHandlerError.raw.handler = name;
     return handlers.onError(missingHandlerError);] *)
Definition return_missing_handler {A} (name : string) : M A :=
  set_missing_handler name ;;
  error <- missingHandlerError ;;
  return_onError error.

(** Lines 210-267. *)
Definition dispatch (message customerId modelId serialNumber messageType : JSValue)
  : M unit :=
  if strict_eq_string messageType "DeviceDeregisteredNotification" then
    when (onDeviceDeregistered handlers)
      (call (Call_onDeviceDeregistered customerId modelId serialNumber message) ;;
       return_) ;;
    return_missing_handler "onDeviceDeregistered"
  else if strict_eq_string messageType "DeviceRegisteredNotification" then
    when (onDeviceRegistered handlers)
      (call (Call_onDeviceRegistered customerId modelId serialNumber message) ;;
       return_) ;;
    return_missing_handler "onDeviceRegistered"
  else if strict_eq_string messageType "ItemShippedNotification" then
    when (onItemShippedNotification handlers)
      (orderInfo <- lift (build_orderInfo message) ;;
       call (Call_onItemShippedNotification
               customerId modelId serialNumber orderInfo message) ;;
       return_) ;;
    return_missing_handler "onItemShippedNotification"
  else if strict_eq_string messageType "OrderCancelledNotification" then
    when (onOrderCancelled handlers)
      (orderInfo <- lift (build_orderInfo_cancelled message) ;;
       call (Call_onOrderCancelled
               customerId modelId serialNumber orderInfo message) ;;
       return_) ;;
    return_missing_handler "onOrderCancelled"
  else if strict_eq_string messageType "OrderPlacedNotification" then
    when (onOrderPlaced handlers)
      (orderInfo <- lift (build_orderInfo message) ;;
       call (Call_onOrderPlaced
               customerId modelId serialNumber orderInfo message) ;;
       return_) ;;
    return_missing_handler "onOrderPlaced"
  else if strict_eq_string messageType "SubscriptionChangedNotification" then
    when (onSubscriptionChanged handlers)
      (status <- lift (slotsSubscriptionStatus message) ;;
       call (Call_onSubscriptionChanged
               customerId modelId serialNumber status message) ;;
       return_) ;;
    return_missing_handler "onSubscriptionChanged"
  else ret tt.

(** Lines 203-267: field extraction, then the dispatch chain. *)
Definition extract_and_dispatch (message : JSValue) : M unit :=
  fields <- lift (extract message) ;;
  dispatch message (customerId fields) (modelId fields) (serialNumber fields)
           (messageType fields).

(** Lines 113-268: the callback given to [validator.validate]. *)
Definition on_validated (err : JSValue) (parsed : IBodySNS) : M unit :=
  when (truthy err)
    (return_onError
       {| code := Some "invalid_signature";
          reason := errorCodes.invalid_signature;
          raw := RawValue err |}) ;;
  confirm_subscription err parsed ;;
  payload <- parse_message parsed ;;
  message <- unwrap parsed payload ;;
  extract_and_dispatch message.

End Router.

(** How a callback ended: it returned, or it threw [e] (for the [async]
    callback of the verifier, its promise is rejected with [e]). *)
Inductive Completion : Type :=
| Done
| Threw (e : Exn).

(** What one call leaves behind. *)
Record Outcome : Type := {
  handler_field : string;      (* missingHandlerError.raw.handler afterwards *)
  events : list Event;
  completion : Completion
}.

Definition run (m : M unit) (handler0 : string) : Outcome :=
  let '(s, r) := m {| missingHandlerError_handler := handler0; trace := [] |} in
  {| handler_field := missingHandlerError_handler s;
     events := trace s;
     completion := match r with Thrown e => Threw e | _ => Done end |}.

(** [receiveRequest(body, handlers)], started with [missingHandlerError.raw.handler]
    holding [handler0]. *)
Definition receiveRequest (env : Env) (body : IBodySNS) (handlers : IHandlers)
    (handler0 : string) : Outcome :=
  let '(err, parsed) := validator_validate env body in
  run (on_validated env handlers err parsed) handler0.

(** ** [validate] (lines 271-309) *)

(** How the promise of the promise-style convention settles. *)
Inductive Settlement : Type :=
| Resolved (parsed : IBodySNS)
| Rejected (error : IError).

(** What [validate] hands back to its caller. *)
Inductive Returns : Type :=
| Returns_undefined
| Returns_promise (s : Settlement).

(** [handlers]: [None] when the argument is [null] or [undefined];
    [callback]: whether the plain callback was supplied. *)
Definition isPromise (handlers : option HandlersObject) (callback : bool) : bool :=
  match handlers with None => true | Some _ => false end && negb callback.

(** [handlers && handlers.f] *)
Definition supplied_with (handlers : option HandlersObject)
    (f : HandlersObject -> bool) : bool :=
  match handlers with
  | Some h => f h
  | None => false
  end.

Definition invalid_signature_error (err : JSValue) : IError :=
  {| code := Some "invalid_signature";
     reason := errorCodes.invalid_signature;
     raw := RawValue err |}.

(** Lines 290-308: the callback of the callback-style convention. *)
Definition on_only_validated (message : IBodySNS) (handlers : option HandlersObject)
    (callback : bool) (err : JSValue) (parsed : IBodySNS) : M unit :=
  when (truthy err)
    (if supplied_with handlers onError then
       return_onError (invalid_signature_error err)
     else if callback then
       call (Call_callback (Some (invalid_signature_error err)) message) ;; return_
     else ret tt) ;;
  if supplied_with handlers has_onOnlyValidateMessage then
    call (Call_onOnlyValidateMessage parsed) ;; return_
  else if callback then
    call (Call_callback None parsed) ;; return_
  else ret tt.

Record ValidateOutcome : Type := {
  returned : Returns;
  validate_events : list Event;
  validate_completion : Completion
}.

Definition validate (env : Env) (message : IBodySNS)
    (handlers : option HandlersObject) (callback : bool) : ValidateOutcome :=
  let '(err, parsed) := validator_validate env message in
  if isPromise handlers callback then
    {| returned := Returns_promise
                     (if truthy err then Rejected (invalid_signature_error err)
                      else Resolved parsed);
       validate_events := [];
       validate_completion := Done |}
  else
    let o := run (on_only_validated message handlers callback err parsed) "" in
    {| returned := Returns_undefined;
       validate_events := events o;
       validate_completion := completion o |}.

(** ** Sample inputs

    The scenarios of the specification, as values: an envelope, the handler
    sets, and environments whose collaborators answer with fixed values. *)
Module Sample.

(** An envelope of the given type, with the given confirmation URL.  Its
    [Message] stands for the JSON text of the payload, which the sample
    environments below parse to the payload they are given. *)
Definition envelope (type : string) (url : option string) : IBodySNS :=
  {| Type_ := type;
     MessageId := "m-1";
     TopicArn := "arn:aws:sns:us-east-1:000000000000:drs";
     Subject := "drs";
     Message := "payload";
     Timestamp := "2018-01-01T00:00:00.000Z";
     SignatureVersion := "1";
     Signature := "c2lnbmF0dXJl";
     SigningCertURL := "https://sns.us-east-1.amazonaws.com/cert.pem";
     UnsubscribeURL := "https://sns.us-east-1.amazonaws.com/?Action=Unsubscribe";
     SubscribeURL := url |}.

Definition notification : IBodySNS := envelope "Notification" None.

Definition confirmation : IBodySNS :=
  envelope "SubscriptionConfirmation"
           (Some "https://sns.us-east-1.amazonaws.com/?Action=ConfirmSubscription").

(** A handler set with every optional callback defined, and one with none. *)
Definition all_handlers : IHandlers :=
  {| onOnlyValidateMessage := true; onNonDRSMessage := true;
     onDeviceDeregistered := true; onDeviceRegistered := true;
     onItemShippedNotification := true; onOrderCancelled := true;
     onOrderPlaced := true; onSubscriptionChanged := true |}.

Definition only_onError : IHandlers :=
  {| onOnlyValidateMessage := false; onNonDRSMessage := false;
     onDeviceDeregistered := false; onDeviceRegistered := false;
     onItemShippedNotification := false; onOrderCancelled := false;
     onOrderPlaced := false; onSubscriptionChanged := false |}.

(** The same two sets as [validate] receives them, [onError] included. *)
Definition all_handlers_object : HandlersObject :=
  {| onError := true; members := all_handlers |}.

Definition only_onError_object : HandlersObject :=
  {| onError := true; members := only_onError |}.

(** The [Error] objects of the collaborators. *)
Definition Error (message : string) : JSValue := JObj [("message", JStr message)].

(** The verifier accepts ([err] is [null]), [JSON.parse] yields [payload],
    the GET is answered by [response]. *)
Definition accepting (payload : JSValue + JSValue)
    (response : JSValue * JSValue * JSValue) : Env :=
  {| validator_validate := fun body => (JNull, body);
     request := fun _ => response;
     JSON_parse := fun _ => payload |}.

(** The verifier rejects with [err]. *)
Definition rejecting (err : JSValue) : Env :=
  {| validator_validate := fun body => (err, body);
     request := fun _ => (JNull, JUndefined, JUndefined);
     JSON_parse := fun _ => inl JNull |}.

Definition ok_response : JSValue * JSValue * JSValue :=
  (JNull, JObj [("statusCode", JNum 200%float)], JStr "ok").

(** [{"deviceInfo": {"deviceIdentifier": {"serialNumber": "S1"},
                     "productIdentifier": {"modelId": "M1"}},
      "customerInfo": {"directedCustomerId": "C1"},
      "notificationInfo": {"notificationType": type}, ...extra}] *)
Definition drs_message (type : string) (extra : list (string * JSValue)) : JSValue :=
  JObj ([ ("notificationInfo", JObj [("notificationType", JStr type)]);
          ("deviceInfo",
           JObj [ ("deviceIdentifier", JObj [("serialNumber", JStr "S1")]);
                  ("productIdentifier", JObj [("modelId", JStr "M1")]) ]);
          ("customerInfo", JObj [("directedCustomerId", JStr "C1")]) ] ++ extra).

(** [{"instanceId": "I1", "slotId": "SL1", "productInfo": [{"asin": "A1"}]}] *)
Definition order : JSValue :=
  JObj [ ("instanceId", JStr "I1"); ("slotId", JStr "SL1");
         ("productInfo", JArr [JObj [("asin", JStr "A1")]]) ].

Definition order_placed : JSValue :=
  drs_message "OrderPlacedNotification" [("orderInfo", order)].

(** An order with product data and no [instanceId] or [slotId]. *)
Definition order_cancelled : JSValue :=
  drs_message "OrderCancelledNotification"
    [("orderInfo", JObj [("productInfo", JArr [JObj [("asin", JStr "A1")]])])].

(** A payload wrapped for two transports at once, [email] written first:
    [{"email": <order placed>, "default": <device registered>}] *)
Definition wrapped_twice : JSValue :=
  JObj [ ("email", order_placed);
         ("default", drs_message "DeviceRegisteredNotification" []) ].

(** [{"default": "hello", "subject": "billing"}]: not a DRS notification. *)
Definition other_message : JSValue :=
  JObj [("default", JStr "hello"); ("subject", JStr "billing")].

(** [{"default": {..., "notificationInfo": {"notificationType": "FooBar"}}}] *)
Definition wrapped_unknown : JSValue :=
  JObj [("default", drs_message "FooBar" [])].

(** [{"notificationInfo": {"notificationType": "DeviceRegisteredNotification"}}]:
    a known type and no device info. *)
Definition no_deviceInfo : JSValue :=
  JObj [("notificationInfo",
         JObj [("notificationType", JStr "DeviceRegisteredNotification")])].

(** A device registration with no [customerInfo]. *)
Definition no_customerInfo : JSValue :=
  JObj [ ("notificationInfo",
          JObj [("notificationType", JStr "DeviceRegisteredNotification")]);
         ("deviceInfo",
          JObj [ ("deviceIdentifier", JObj [("serialNumber", JStr "S1")]);
                 ("productIdentifier", JObj [("modelId", JStr "M1")]) ]) ].

(** What [request] calls back with when the connection fails. *)
Definition transport_error : JSValue * JSValue * JSValue :=
  (Error "connect ECONNREFUSED", JUndefined, JUndefined).

(** A transport error reported together with a 200 response. *)
Definition error_with_200 : JSValue * JSValue * JSValue :=
  (Error "socket hang up", JObj [("statusCode", JNum 200%float)], JStr "").

Definition forbidden_response : JSValue * JSValue * JSValue :=
  (JNull, JObj [("statusCode", JNum 403%float)], JStr "Forbidden").

End Sample.

(** ** The conditions of the pipeline, as values

    The same tests the code makes, on the payload alone; the statements
    below are phrased with them. *)

(** [undefined] or [null]: a value no property can be read from. *)
Definition nullish (v : JSValue) : bool :=
  match v with
  | JUndefined | JNull => true
  | _ => false
  end.

(** The four transport keys, in the order the unwrapper tries them. *)
Definition transport_keys : list string := ["default"; "email"; "http"; "https"].

(** [payload] holds, under [k], a value that holds device info:
    [payload.k && payload.k.deviceInfo] is truthy. *)
Definition carries_deviceInfo (payload : JSValue) (k : string) : bool :=
  match get payload k with
  | inl sub =>
      truthy sub &&
      match get sub "deviceInfo" with
      | inl deviceInfo => truthy deviceInfo
      | inr _ => false
      end
  | inr _ => false
  end.

(** The first transport key, in priority order, whose value holds device
    info. *)
Definition first_transport (payload : JSValue) : option string :=
  find (carries_deviceInfo payload) transport_keys.

(** The notification-type discriminator of [payload], when
    [payload.notificationInfo && payload.notificationInfo.notificationType]
    is truthy. *)
Definition discriminator (payload : JSValue) : option JSValue :=
  match get payload "notificationInfo" with
  | inl notificationInfo =>
      if truthy notificationInfo then
        match get notificationInfo "notificationType" with
        | inl t => if truthy t then Some t else None
        | inr _ => None
        end
      else None
  | inr _ => None
  end.

(** [t] is one of the six known notification types. *)
Definition known (t : JSValue) : bool :=
  negb (indexOf knownMessageTypes t =? -1)%Z.

(** The verifier accepted [body] as [parsed], an envelope that is not a
    subscription confirmation and whose [Message] parses to [payload]. *)
Definition delivers (env : Env) (body parsed : IBodySNS) (payload : JSValue) : Prop :=
  exists err,
    validator_validate env body = (err, parsed) /\
    truthy err = false /\
    (Type_ parsed =? "SubscriptionConfirmation") = false /\
    JSON_parse env (Message parsed) = inl payload.

(** The dispatch table of lines 210-267: notification type, the member of
    the handler set it is routed to, and that member's name. *)
Definition handler_table : list (string * (IHandlers -> bool) * string) :=
  [ ("DeviceDeregisteredNotification", onDeviceDeregistered, "onDeviceDeregistered");
    ("DeviceRegisteredNotification", onDeviceRegistered, "onDeviceRegistered");
    ("ItemShippedNotification", onItemShippedNotification, "onItemShippedNotification");
    ("OrderCancelledNotification", onOrderCancelled, "onOrderCancelled");
    ("OrderPlacedNotification", onOrderPlaced, "onOrderPlaced");
    ("SubscriptionChangedNotification", onSubscriptionChanged, "onSubscriptionChanged") ].

(** What the unwrapper passes on to field extraction: the value under the
    first transport key that holds device info, or else the payload itself
    when its discriminator names a known type. *)
Inductive classified (payload : JSValue) : JSValue -> Prop :=
| classified_nested k sub :
    first_transport payload = Some k ->
    get payload k = inl sub ->
    classified payload sub
| classified_direct t :
    nullish payload = false ->
    first_transport payload = None ->
    discriminator payload = Some t ->
    known t = true ->
    classified payload payload.

(** Every way the unwrapper can end. *)
Inductive unwrap_outcome (handlers : IHandlers) (parsed : IBodySNS)
    (payload : JSValue) (s : State) : State * Step JSValue -> Prop :=
| unwrap_faults :
    nullish payload = true ->
    unwrap_outcome handlers parsed payload s (s, Thrown (TypeError "default"))
| unwrap_continues message :
    classified payload message ->
    unwrap_outcome handlers parsed payload s (s, Next message)
| unwrap_unknown t :
    nullish payload = false ->
    first_transport payload = None ->
    discriminator payload = Some t ->
    known t = false ->
    unwrap_outcome handlers parsed payload s
      (record s (Call_onError {| code := Some "unknown_message";
                                 reason := errorCodes.unknown_message;
                                 raw := RawMessage t |}), Returned)
| unwrap_non_drs :
    nullish payload = false ->
    first_transport payload = None ->
    discriminator payload = None ->
    onNonDRSMessage handlers = true ->
    unwrap_outcome handlers parsed payload s
      (record s (Call_onNonDRSMessage parsed), Returned)
| unwrap_not_drs :
    nullish payload = false ->
    first_transport payload = None ->
    discriminator payload = None ->
    onNonDRSMessage handlers = false ->
    unwrap_outcome handlers parsed payload s
      (record s (Call_onError {| code := Some "not_drs";
                                 reason := errorCodes.not_drs;
                                 raw := RawBody parsed |}), Returned).

(** ** Every way a dispatch call can end *)

(** The callback a notification of type [t] is routed to when the handler
    set defines it, with the arguments it is called with. *)
Inductive invokes (handlers : IHandlers) (message : JSValue) (fields : Fields)
  : Event -> Prop :=
| invokes_onDeviceDeregistered :
    messageType fields = JStr "DeviceDeregisteredNotification" ->
    onDeviceDeregistered handlers = true ->
    invokes handlers message fields
      (Call_onDeviceDeregistered
         (customerId fields) (modelId fields) (serialNumber fields) message)
| invokes_onDeviceRegistered :
    messageType fields = JStr "DeviceRegisteredNotification" ->
    onDeviceRegistered handlers = true ->
    invokes handlers message fields
      (Call_onDeviceRegistered
         (customerId fields) (modelId fields) (serialNumber fields) message)
| invokes_onItemShippedNotification orderInfo :
    messageType fields = JStr "ItemShippedNotification" ->
    onItemShippedNotification handlers = true ->
    build_orderInfo message = inl orderInfo ->
    invokes handlers message fields
      (Call_onItemShippedNotification
         (customerId fields) (modelId fields) (serialNumber fields) orderInfo message)
| invokes_onOrderCancelled orderInfo :
    messageType fields = JStr "OrderCancelledNotification" ->
    onOrderCancelled handlers = true ->
    build_orderInfo_cancelled message = inl orderInfo ->
    invokes handlers message fields
      (Call_onOrderCancelled
         (customerId fields) (modelId fields) (serialNumber fields) orderInfo message)
| invokes_onOrderPlaced orderInfo :
    messageType fields = JStr "OrderPlacedNotification" ->
    onOrderPlaced handlers = true ->
    build_orderInfo message = inl orderInfo ->
    invokes handlers message fields
      (Call_onOrderPlaced
         (customerId fields) (modelId fields) (serialNumber fields) orderInfo message)
| invokes_onSubscriptionChanged status :
    messageType fields = JStr "SubscriptionChangedNotification" ->
    onSubscriptionChanged handlers = true ->
    slotsSubscriptionStatus message = inl status ->
    invokes handlers message fields
      (Call_onSubscriptionChanged
         (customerId fields) (modelId fields) (serialNumber fields) status message).

(** Building the order argument of a defined order handler faults. *)
Inductive argument_faults (handlers : IHandlers) (message : JSValue) (fields : Fields)
  : Exn -> Prop :=
| faults_onItemShippedNotification e :
    messageType fields = JStr "ItemShippedNotification" ->
    onItemShippedNotification handlers = true ->
    build_orderInfo message = inr e ->
    argument_faults handlers message fields e
| faults_onOrderCancelled e :
    messageType fields = JStr "OrderCancelledNotification" ->
    onOrderCancelled handlers = true ->
    build_orderInfo_cancelled message = inr e ->
    argument_faults handlers message fields e
| faults_onOrderPlaced e :
    messageType fields = JStr "OrderPlacedNotification" ->
    onOrderPlaced handlers = true ->
    build_orderInfo message = inr e ->
    argument_faults handlers message fields e.

Definition confirmation_error (confirmErr confirmResponse confirmBody : JSValue)
  : IError :=
  {| code := Some "invalid_subscription_request_response";
     reason := errorCodes.invalid_subscription_request_response;
     raw := RawConfirm confirmErr confirmResponse confirmBody |}.

(** The events and the completion of the confirmation path, for a verified
    confirmation envelope [parsed] and the verifier's [err]. *)
Inductive confirms (env : Env) (err : JSValue) (parsed : IBodySNS)
  : list Event -> Completion -> Prop :=
| confirms_no_url :
    confirmation_url parsed = "" ->
    confirms env err parsed
      [Call_onError {| code := Some "invalid_subscription_request";
                       reason := errorCodes.invalid_subscription_request;
                       raw := RawBody parsed |}]
      Done
| confirms_reports confirmErr confirmResponse confirmBody :
    confirmation_url parsed <> "" ->
    request env (confirmation_url parsed) = (confirmErr, confirmResponse, confirmBody) ->
    strict_eq_null err = false \/
    (exists statusCode,
        get confirmResponse "statusCode" = inl statusCode /\
        strict_eq_number statusCode 200%float = false) ->
    confirms env err parsed
      [Call_request (confirmation_url parsed);
       Call_onError (confirmation_error confirmErr confirmResponse confirmBody)]
      Done
| confirms_silently confirmErr confirmResponse confirmBody statusCode :
    confirmation_url parsed <> "" ->
    request env (confirmation_url parsed) = (confirmErr, confirmResponse, confirmBody) ->
    strict_eq_null err = true ->
    get confirmResponse "statusCode" = inl statusCode ->
    strict_eq_number statusCode 200%float = true ->
    confirms env err parsed [Call_request (confirmation_url parsed)] Done
| confirms_faults confirmErr confirmResponse confirmBody e :
    confirmation_url parsed <> "" ->
    request env (confirmation_url parsed) = (confirmErr, confirmResponse, confirmBody) ->
    strict_eq_null err = true ->
    get confirmResponse "statusCode" = inr e ->
    confirms env err parsed [Call_request (confirmation_url parsed)] (Threw e).

(** The paths through [receiveRequest], each with the condition it is
    taken under and the outcome it leaves. *)
Inductive routed (env : Env) (body : IBodySNS) (handlers : IHandlers)
    (handler0 : string) : Outcome -> Prop :=
| routed_invalid_signature err parsed :
    validator_validate env body = (err, parsed) ->
    truthy err = true ->
    routed env body handlers handler0
      {| handler_field := handler0;
         events := [Call_onError (invalid_signature_error err)];
         completion := Done |}
| routed_confirmation err parsed report c :
    validator_validate env body = (err, parsed) ->
    truthy err = false ->
    (Type_ parsed =? "SubscriptionConfirmation") = true ->
    confirms env err parsed report c ->
    routed env body handlers handler0
      {| handler_field := handler0; events := report; completion := c |}
| routed_invalid_json err parsed er :
    validator_validate env body = (err, parsed) ->
    truthy err = false ->
    (Type_ parsed =? "SubscriptionConfirmation") = false ->
    JSON_parse env (Message parsed) = inr er ->
    routed env body handlers handler0
      {| handler_field := handler0;
         events := [Call_onError {| code := Some "invalid_json";
                                    reason := errorCodes.invalid_json;
                                    raw := RawValue er |}];
         completion := Done |}
| routed_unwrap_faults parsed payload :
    delivers env body parsed payload ->
    nullish payload = true ->
    routed env body handlers handler0
      {| handler_field := handler0; events := [];
         completion := Threw (TypeError "default") |}
| routed_unknown_message parsed payload t :
    delivers env body parsed payload ->
    nullish payload = false ->
    first_transport payload = None ->
    discriminator payload = Some t ->
    known t = false ->
    routed env body handlers handler0
      {| handler_field := handler0;
         events := [Call_onError {| code := Some "unknown_message";
                                    reason := errorCodes.unknown_message;
                                    raw := RawMessage t |}];
         completion := Done |}
| routed_non_drs parsed payload :
    delivers env body parsed payload ->
    nullish payload = false ->
    first_transport payload = None ->
    discriminator payload = None ->
    routed env body handlers handler0
      {| handler_field := handler0;
         events := [if onNonDRSMessage handlers
                    then Call_onNonDRSMessage parsed
                    else Call_onError {| code := Some "not_drs";
                                         reason := errorCodes.not_drs;
                                         raw := RawBody parsed |}];
         completion := Done |}
| routed_extract_faults parsed payload message e :
    delivers env body parsed payload ->
    classified payload message ->
    extract message = inr e ->
    routed env body handlers handler0
      {| handler_field := handler0; events := []; completion := Threw e |}
| routed_handler parsed payload message fields ev :
    delivers env body parsed payload ->
    classified payload message ->
    extract message = inl fields ->
    invokes handlers message fields ev ->
    routed env body handlers handler0
      {| handler_field := handler0; events := [ev]; completion := Done |}
| routed_argument_faults parsed payload message fields e :
    delivers env body parsed payload ->
    classified payload message ->
    extract message = inl fields ->
    argument_faults handlers message fields e ->
    routed env body handlers handler0
      {| handler_field := handler0; events := []; completion := Threw e |}
| routed_missing_handler parsed payload message fields type defined name :
    delivers env body parsed payload ->
    classified payload message ->
    extract message = inl fields ->
    messageType fields = JStr type ->
    In (type, defined, name) handler_table ->
    defined handlers = false ->
    routed env body handlers handler0
      {| handler_field := name;
         events := [Call_onError (missing_handler_error name)];
         completion := Done |}
| routed_dropped parsed payload message fields :
    delivers env body parsed payload ->
    classified payload message ->
    extract message = inl fields ->
    known (messageType fields) = false ->
    routed env body handlers handler0
      {| handler_field := handler0; events := []; completion := Done |}.

(** ** Terminal actions *)

(** The event is the invocation of a handler other than [onError]. *)
Definition handler_invocation (ev : Event) : bool :=
  match ev with
  | Call_onError _ | Call_request _ | Call_callback _ _ => false
  | _ => true
  end.

(** The events of a dispatch call amount to exactly one terminal action:
    one handler invocation, or one error report, or one confirmation
    attempt (the request, with the report of its failure if it failed) and
    nothing else. *)
Inductive one_terminal_action : list Event -> Prop :=
| one_handler_invocation ev :
    handler_invocation ev = true -> one_terminal_action [ev]
| one_error_report error :
    one_terminal_action [Call_onError error]
| one_confirmation_attempt url :
    one_terminal_action [Call_request url]
| one_failed_confirmation_attempt url error :
    one_terminal_action [Call_request url; Call_onError error].

(** The payload of the verified notification [body] was unwrapped from a
    transport key and names a type outside the six known ones. *)
Definition nested_unknown_type (env : Env) (body : IBodySNS) : Prop :=
  exists parsed payload k message fields,
    delivers env body parsed payload /\
    first_transport payload = Some k /\
    get payload k = inl message /\
    extract message = inl fields /\
    known (messageType fields) = false.

(** ** Well-formed notifications *)

(** [message.k1...kn] can be read and properties can be read from it. *)
Definition present (message : JSValue) (ks : list string) : bool :=
  match get_path message ks with
  | inl v => negb (nullish v)
  | inr _ => false
  end.

(** One of the three notification types that carry an order. *)
Definition order_notification (t : JSValue) : bool :=
  strict_eq_string t "ItemShippedNotification"
  || strict_eq_string t "OrderCancelledNotification"
  || strict_eq_string t "OrderPlacedNotification".

(** The containers the four fields of lines 203-206 are read from are all
    there: [deviceInfo.deviceIdentifier], [deviceInfo.productIdentifier],
    [notificationInfo] and [customerInfo]. *)
Definition fields_present (message : JSValue) : bool :=
  present message ["deviceInfo"; "deviceIdentifier"]
  && present message ["deviceInfo"; "productIdentifier"]
  && present message ["notificationInfo"]
  && present message ["customerInfo"].

(** A well-formed notification: the containers of the four fields are
    there, and so is [orderInfo] when the type is an order notification. *)
Definition well_formed (message : JSValue) : bool :=
  fields_present message
  && match get_path message ["notificationInfo"; "notificationType"] with
     | inl t => if order_notification t then present message ["orderInfo"] else true
     | inr _ => false
     end.

(** The verified envelope of [body] is a subscription confirmation with a
    usable URL: the call goes on to the outbound GET. *)
Definition confirmation_request (env : Env) (body : IBodySNS) : Prop :=
  exists err parsed,
    validator_validate env body = (err, parsed) /\
    truthy err = false /\
    (Type_ parsed =? "SubscriptionConfirmation") = true /\
    confirmation_url parsed <> "".

(** ** Reading the events of a call *)

(** [errorCodes] (lines 89-97) as the table it is: each code with its
    reason. *)
Definition errorCodes_table : list (string * string) :=
  [ ("invalid_json", errorCodes.invalid_json);
    ("invalid_signature", errorCodes.invalid_signature);
    ("missing_handler", errorCodes.missing_handler);
    ("not_drs", errorCodes.not_drs);
    ("unknown_message", errorCodes.unknown_message);
    ("invalid_subscription_request", errorCodes.invalid_subscription_request);
    ("invalid_subscription_request_response",
     errorCodes.invalid_subscription_request_response) ].

(** The [customerId], [modelId], [serialNumber] and [raw] arguments of a
    call of one of the six notification handlers. *)
Definition notification_call (ev : Event)
  : option (JSValue * JSValue * JSValue * JSValue) :=
  match ev with
  | Call_onDeviceDeregistered c m s raw
  | Call_onDeviceRegistered c m s raw
  | Call_onItemShippedNotification c m s _ raw
  | Call_onOrderCancelled c m s _ raw
  | Call_onOrderPlaced c m s _ raw
  | Call_onSubscriptionChanged c m s _ raw => Some (c, m, s, raw)
  | _ => None
  end.

(** The [orderInfo] and [raw] arguments of a call of one of the three
    order handlers. *)
Definition order_call (ev : Event) : option (IOrderInfo * JSValue) :=
  match ev with
  | Call_onItemShippedNotification _ _ _ orderInfo raw
  | Call_onOrderCancelled _ _ _ orderInfo raw
  | Call_onOrderPlaced _ _ _ orderInfo raw => Some (orderInfo, raw)
  | _ => None
  end.

(** [v ? v : ""] *)
Definition or_empty (v : JSValue) : JSValue := if truthy v then v else JStr "".

(** A call that only [validate] makes: of [onOnlyValidateMessage] or of the
    plain callback. *)
Definition validate_only_call (ev : Event) : bool :=
  match ev with
  | Call_onOnlyValidateMessage _ | Call_callback _ _ => true
  | _ => false
  end.

(** A JSON value that is neither an object nor [null]: a boolean, a number,
    a string or an array. *)
Definition not_an_object (v : JSValue) : bool :=
  match v with
  | JBool _ | JNum _ | JStr _ | JArr _ => true
  | _ => false
  end.

(** [validate] handed back a promise. *)
Definition is_promise (r : Returns) : bool :=
  match r with
  | Returns_promise _ => true
  | Returns_undefined => false
  end.

(** ** More sample inputs: the edges *)
Module Edge.

(** An order placed whose [orderInfo] is
    [{"instanceId": null, "slotId": 0}]: ids that are there and falsy, and
    no [productInfo]. *)
Definition falsy_ids : JSValue :=
  Sample.drs_message "OrderPlacedNotification"
    [("orderInfo", JObj [("instanceId", JNull); ("slotId", JNum 0%float)])].

(** An order placed with no [orderInfo] at all. *)
Definition no_orderInfo : JSValue :=
  Sample.drs_message "OrderPlacedNotification" [].


(** A subscription change with
    [{"subscriptionInfo": {"slotsSubscriptionStatus": {"SL1": true}}}]. *)
Definition subscribed : JSValue :=
  Sample.drs_message "SubscriptionChangedNotification"
    [("subscriptionInfo",
      JObj [("slotsSubscriptionStatus", JObj [("SL1", JBool true)])])].

(** A device registration under [https], beside an unknown top-level
    discriminator. *)
Definition wrapped_beside_unknown : JSValue :=
  JObj [ ("notificationInfo", JObj [("notificationType", JStr "FooBar")]);
         ("https", Sample.drs_message "DeviceRegisteredNotification" []) ].

(** A handler set that, against the interface, has no [onError]: only
    [onOnlyValidateMessage]. *)
Definition without_onError : HandlersObject :=
  {| onError := false;
     members :=
       {| onOnlyValidateMessage := true; onNonDRSMessage := false;
          onDeviceDeregistered := false; onDeviceRegistered := false;
          onItemShippedNotification := false; onOrderCancelled := false;
          onOrderPlaced := false; onSubscriptionChanged := false |} |}.

End Edge.

(** ** Running the stages *)

(** Unfolds the sequencing of statements and nothing else. *)
Ltac msimpl :=
  cbv beta iota delta [bind ret lift throw return_ when prop path return_onError].

Lemma truthy_not_nullish v : truthy v = true -> nullish v = false.
Proof. destruct v; simpl; congruence. Qed.

Lemma get_not_nullish v k : nullish v = false -> exists x, get v k = inl x.
Proof. destruct v; simpl; try discriminate; eauto. Qed.

Lemma get_nullish v k : nullish v = true -> get v k = inr (TypeError k).
Proof. destruct v; simpl; congruence. Qed.

Lemma nested_deviceInfo_run message k s :
  nullish message = false ->
  nested_deviceInfo message k s = (s, Next (carries_deviceInfo message k)).
Proof.
  intros Hn. unfold nested_deviceInfo, carries_deviceInfo. msimpl.
  destruct (get_not_nullish message k Hn) as [sub ->]. msimpl.
  destruct (truthy sub) eqn:Hsub; simpl; [| reflexivity].
  destruct (get_not_nullish sub "deviceInfo" (truthy_not_nullish _ Hsub)) as [d ->].
  reflexivity.
Qed.

Lemma has_notificationType_run message s :
  nullish message = false ->
  has_notificationType message s =
    (s, Next (match discriminator message with Some _ => true | None => false end)).
Proof.
  intros Hn. unfold has_notificationType, discriminator. msimpl.
  destruct (get_not_nullish message "notificationInfo" Hn) as [ni ->]. msimpl.
  destruct (truthy ni) eqn:Hni; simpl; [| reflexivity].
  destruct (get_not_nullish ni "notificationType" (truthy_not_nullish _ Hni)) as [t ->].
  destruct (truthy t); reflexivity.
Qed.

Lemma discriminator_path message t :
  discriminator message = Some t ->
  get_path message ["notificationInfo"; "notificationType"] = inl t.
Proof.
  unfold discriminator. simpl.
  destruct (get message "notificationInfo") as [ni|]; [| discriminate].
  destruct (truthy ni); [| discriminate].
  destruct (get ni "notificationType") as [t'|]; [| discriminate].
  destruct (truthy t'); congruence.
Qed.

Lemma carries_deviceInfo_get payload k :
  carries_deviceInfo payload k = true ->
  exists sub, get payload k = inl sub /\ nullish payload = false.
Proof.
  unfold carries_deviceInfo. destruct payload; simpl; try discriminate; eauto.
Qed.

(** A payload no property can be read from stops the unwrapper at its first
    test. *)
Lemma unwrap_nullish handlers parsed payload s :
  nullish payload = true ->
  unwrap handlers parsed payload s = (s, Thrown (TypeError "default")).
Proof.
  intros Hn. unfold unwrap, nested_deviceInfo. msimpl.
  rewrite (get_nullish _ _ Hn). reflexivity.
Qed.

(** A payload that holds device info under a transport key is replaced by
    the value under the first such key. *)
Lemma unwrap_nested handlers parsed payload k sub s :
  first_transport payload = Some k ->
  get payload k = inl sub ->
  unwrap handlers parsed payload s = (s, Next sub).
Proof.
  unfold first_transport, transport_keys. simpl. intros Hf Hg.
  assert (Hn : nullish payload = false).
  { destruct payload; simpl in *; try discriminate; reflexivity. }
  unfold unwrap, bind.
  repeat (rewrite (nested_deviceInfo_run _ _ _ Hn);
          match type of Hf with
          | (if ?c then _ else _) = _ =>
              let E := fresh "E" in
              destruct c eqn:E;
              [ injection Hf as <-; msimpl; rewrite Hg; reflexivity | cbv beta iota ]
          end).
  discriminate.
Qed.

(** A payload that holds device info under no transport key is classified
    where it stands. *)
Lemma unwrap_direct handlers parsed payload s :
  nullish payload = false ->
  first_transport payload = None ->
  unwrap handlers parsed payload s =
    match discriminator payload with
    | Some t =>
        if known t then (s, Next payload)
        else return_onError
               {| code := Some "unknown_message";
                  reason := errorCodes.unknown_message;
                  raw := RawMessage t |} s
    | None =>
        if onNonDRSMessage handlers
        then (call (Call_onNonDRSMessage parsed) ;; return_) s
        else return_onError
               {| code := Some "not_drs";
                  reason := errorCodes.not_drs;
                  raw := RawBody parsed |} s
    end.
Proof.
  unfold first_transport, transport_keys. simpl. intros Hn Hf.
  unfold unwrap, bind.
  repeat (rewrite (nested_deviceInfo_run _ _ _ Hn);
          match type of Hf with
          | (if ?c then _ else _) = _ =>
              let E := fresh "E" in
              destruct c eqn:E; [ discriminate | cbv beta iota ]
          end).
  rewrite (has_notificationType_run _ _ Hn).
  destruct (discriminator payload) as [t|] eqn:Hd; cbv beta iota.
  - msimpl. rewrite (discriminator_path _ _ Hd). unfold known.
    destruct (indexOf knownMessageTypes t =? -1)%Z; reflexivity.
  - msimpl. destruct (onNonDRSMessage handlers); reflexivity.
Qed.

Lemma unwrap_classified handlers parsed payload message s :
  classified payload message ->
  unwrap handlers parsed payload s = (s, Next message).
Proof.
  intros [k sub Hf Hg | t Hn Hf Hd Hk].
  - exact (unwrap_nested _ _ _ _ _ _ Hf Hg).
  - rewrite (unwrap_direct _ _ _ _ Hn Hf), Hd, Hk. reflexivity.
Qed.

Lemma first_transport_get payload k :
  first_transport payload = Some k -> exists sub, get payload k = inl sub.
Proof.
  intros Hf. apply find_some in Hf as [_ Hc].
  destruct (carries_deviceInfo_get _ _ Hc) as (sub & Hg & _). eauto.
Qed.

Lemma unwrap_outcomes handlers parsed payload s :
  unwrap_outcome handlers parsed payload s (unwrap handlers parsed payload s).
Proof.
  destruct (nullish payload) eqn:Hn.
  - rewrite (unwrap_nullish _ _ _ _ Hn). now constructor.
  - destruct (first_transport payload) as [k|] eqn:Hf.
    + destruct (first_transport_get _ _ Hf) as [sub Hg].
      rewrite (unwrap_nested _ _ _ _ _ _ Hf Hg).
      constructor. econstructor; eassumption.
    + rewrite (unwrap_direct _ _ _ _ Hn Hf).
      destruct (discriminator payload) as [t|] eqn:Hd.
      * destruct (known t) eqn:Hk.
        -- constructor. econstructor 2; eassumption.
        -- now apply unwrap_unknown.
      * destruct (onNonDRSMessage handlers) eqn:Hh.
        -- now apply unwrap_non_drs.
        -- now apply unwrap_not_drs.
Qed.

(** A verified notification goes straight to the unwrapper. *)
Lemma receiveRequest_delivered env body handlers handler0 parsed payload :
  delivers env body parsed payload ->
  receiveRequest env body handlers handler0 =
    run (message <- unwrap handlers parsed payload ;;
         extract_and_dispatch handlers message) handler0.
Proof.
  intros (err & Hv & He & Ht & Hp).
  unfold receiveRequest. rewrite Hv.
  unfold run, on_validated, confirm_subscription, parse_message.
  rewrite He, Ht, Hp. reflexivity.
Qed.

(** The membership test against [knownMessageTypes], test by test. *)
Lemma known_tests t :
  known t =
    (strict_eq_string t "DeviceDeregisteredNotification"
     || strict_eq_string t "DeviceRegisteredNotification"
     || strict_eq_string t "ItemShippedNotification"
     || strict_eq_string t "OrderCancelledNotification"
     || strict_eq_string t "OrderPlacedNotification"
     || strict_eq_string t "SubscriptionChangedNotification").
Proof.
  unfold known, indexOf, knownMessageTypes, indexOf_from.
  repeat match goal with
         | |- context [if ?c then _ else _] => destruct c
         end; reflexivity.
Qed.

(** ** The scenario of the specification *)

Example order_placed_scenario :
  receiveRequest (Sample.accepting (inl Sample.order_placed) Sample.ok_response)
                 Sample.notification Sample.all_handlers "" =
    {| handler_field := "";
       events := [Call_onOrderPlaced
                    (JStr "C1") (JStr "M1") (JStr "S1")
                    {| instanceId := JStr "I1"; slotId := JStr "SL1";
                       productInfo := JArr [JObj [("asin", JStr "A1")]] |}
                    Sample.order_placed];
       completion := Done |}.
Proof. reflexivity. Qed.

(** ** Verification failures *)

(** C5. An envelope the verifier rejects, whatever the error it gives, is
    answered by exactly one call of [onError], with code
    [invalid_signature] and the verifier's error as raw context; no other
    callback is called and nothing is requested. *)
Theorem invalid_signature_reported env body handlers handler0 err parsed :
  validator_validate env body = (err, parsed) ->
  truthy err = true ->
  receiveRequest env body handlers handler0 =
    {| handler_field := handler0;
       events := [Call_onError {| code := Some "invalid_signature";
                                  reason := errorCodes.invalid_signature;
                                  raw := RawValue err |}];
       completion := Done |}.
Proof.
  intros Hv He. unfold receiveRequest. rewrite Hv.
  unfold run, on_validated. msimpl. rewrite He. reflexivity.
Qed.

Lemma invalid_signature_reported_witness :
  receiveRequest (Sample.rejecting (Sample.Error "The message signature is invalid."))
                 Sample.notification Sample.all_handlers "" =
    {| handler_field := "";
       events := [Call_onError
                    {| code := Some "invalid_signature";
                       reason := errorCodes.invalid_signature;
                       raw := RawValue
                                (Sample.Error "The message signature is invalid.") |}];
       completion := Done |}.
Proof.
  apply (invalid_signature_reported
           (Sample.rejecting (Sample.Error "The message signature is invalid."))
           Sample.notification Sample.all_handlers ""
           (Sample.Error "The message signature is invalid.") Sample.notification);
    reflexivity.
Defined.

(** ** The validate-only entry point *)

(** C10. [validate] called with a handler set that has no
    [onOnlyValidateMessage] and with no plain callback, on an envelope the
    verifier accepts: no callback is called, and the call returns
    [undefined], not a promise. *)
Theorem validate_silent env message handlers err parsed :
  validator_validate env message = (err, parsed) ->
  truthy err = false ->
  onOnlyValidateMessage (members handlers) = false ->
  validate env message (Some handlers) false =
    {| returned := Returns_undefined;
       validate_events := [];
       validate_completion := Done |}.
Proof.
  intros Hv He Hh. unfold validate. rewrite Hv. simpl.
  unfold run, on_only_validated, has_onOnlyValidateMessage. msimpl. simpl.
  rewrite He, Hh. reflexivity.
Qed.

Lemma validate_silent_witness :
  validate (Sample.accepting (inl Sample.order_placed) Sample.ok_response)
           Sample.notification (Some Sample.only_onError_object) false =
    {| returned := Returns_undefined;
       validate_events := [];
       validate_completion := Done |}.
Proof.
  apply (validate_silent
           (Sample.accepting (inl Sample.order_placed) Sample.ok_response)
           Sample.notification Sample.only_onError_object JNull Sample.notification);
    reflexivity.
Defined.

(** ** The unwrapper *)

(** C9. The unwrapper tries the transport keys in the order [default],
    [email], [http], [https], and goes on with the value under the first of
    them that holds device info, with no event; so when both [default] and
    [email] hold device info, it goes on with the value under [default]. *)
Theorem unwrap_priority handlers parsed payload :
  transport_keys = ["default"; "email"; "http"; "https"] /\
  (forall k,
      find (carries_deviceInfo payload) transport_keys = Some k ->
      exists sub,
        get payload k = inl sub /\
        forall s, unwrap handlers parsed payload s = (s, Next sub)) /\
  (carries_deviceInfo payload "default" = true ->
   carries_deviceInfo payload "email" = true ->
   exists sub,
     get payload "default" = inl sub /\
     forall s, unwrap handlers parsed payload s = (s, Next sub)).
Proof.
  split; [reflexivity |].
  assert (H : forall k,
             first_transport payload = Some k ->
             exists sub,
               get payload k = inl sub /\
               forall s, unwrap handlers parsed payload s = (s, Next sub)).
  { intros k Hf. destruct (first_transport_get _ _ Hf) as [sub Hg].
    exists sub. split; [exact Hg |]. intros s. exact (unwrap_nested _ _ _ _ _ _ Hf Hg). }
  split; [exact H |].
  intros Hd _. apply H. unfold first_transport. simpl. rewrite Hd. reflexivity.
Qed.

Lemma unwrap_priority_witness :
  exists sub,
    get Sample.wrapped_twice "default" = inl sub /\
    forall s,
      unwrap Sample.all_handlers Sample.notification Sample.wrapped_twice s
        = (s, Next sub).
Proof.
  apply (proj2 (proj2 (unwrap_priority Sample.all_handlers Sample.notification
                         Sample.wrapped_twice)));
    reflexivity.
Defined.

(** ** Field extraction and dispatch *)

Lemma extract_run handlers message fields s :
  extract message = inl fields ->
  extract_and_dispatch handlers message s =
    dispatch handlers message (customerId fields) (modelId fields)
             (serialNumber fields) (messageType fields) s.
Proof.
  intros He. unfold extract_and_dispatch. msimpl. rewrite He. reflexivity.
Qed.

Lemma dispatch_missing_handler
    handlers message customerId modelId serialNumber type defined name s :
  In (type, defined, name) handler_table ->
  defined handlers = false ->
  dispatch handlers message customerId modelId serialNumber (JStr type) s =
    ({| missingHandlerError_handler := name;
        trace := trace s ++ [Call_onError (missing_handler_error name)] |},
     Returned).
Proof.
  intros Hin Hd. unfold handler_table in Hin. simpl in Hin.
  repeat (destruct Hin as [Hin | Hin];
          [ injection Hin as <- <- <-; unfold dispatch; simpl; msimpl;
            rewrite Hd; reflexivity |]).
  contradiction.
Qed.

(** C7, as the code has it. A classified notification of a known type
    from which the four fields of lines 203-206 can be read, and whose
    handler is not in the handler set, is answered by one call of
    [onError], with code [missing_handler] and a raw context whose
    [handler] field is the name of the absent handler (the shared template
    holds that name from then on); no other callback is called. *)
Theorem missing_handler_named
    env body handlers handler0 parsed payload message fields type defined name :
  delivers env body parsed payload ->
  classified payload message ->
  extract message = inl fields ->
  messageType fields = JStr type ->
  In (type, defined, name) handler_table ->
  defined handlers = false ->
  receiveRequest env body handlers handler0 =
    {| handler_field := name;
       events := [Call_onError {| code := Some "missing_handler";
                                  reason := errorCodes.missing_handler;
                                  raw := RawHandler name |}];
       completion := Done |}.
Proof.
  intros Hd Hc He Ht Hin Hh.
  rewrite (receiveRequest_delivered _ _ _ _ _ _ Hd).
  unfold run, bind. rewrite (unwrap_classified _ _ _ _ _ Hc).
  rewrite (extract_run _ _ _ _ He), Ht.
  rewrite (dispatch_missing_handler _ _ _ _ _ _ _ _ _ Hin Hh).
  reflexivity.
Qed.

Lemma missing_handler_named_witness :
  receiveRequest (Sample.accepting (inl Sample.order_placed) Sample.ok_response)
                 Sample.notification Sample.only_onError "" =
    {| handler_field := "onOrderPlaced";
       events := [Call_onError {| code := Some "missing_handler";
                                  reason := errorCodes.missing_handler;
                                  raw := RawHandler "onOrderPlaced" |}];
       completion := Done |}.
Proof.
  apply (missing_handler_named
           (Sample.accepting (inl Sample.order_placed) Sample.ok_response)
           Sample.notification Sample.only_onError ""
           Sample.notification Sample.order_placed Sample.order_placed
           {| serialNumber := JStr "S1"; modelId := JStr "M1";
              messageType := JStr "OrderPlacedNotification";
              customerId := JStr "C1" |}
           "OrderPlacedNotification" onOrderPlaced "onOrderPlaced").
  - exists JNull. repeat split.
  - apply (classified_direct _ (JStr "OrderPlacedNotification")); reflexivity.
  - reflexivity.
  - reflexivity.
  - simpl. tauto.
  - reflexivity.
Defined.

(** A classified device registration with no device info and no
    [onDeviceRegistered]: the callback faults while reading the serial
    number, before the handler set is looked at, and no [missing_handler]
    error is reported. *)
Lemma missing_handler_not_reported_without_fields :
  classified Sample.no_deviceInfo Sample.no_deviceInfo /\
  get_path Sample.no_deviceInfo ["notificationInfo"; "notificationType"]
    = inl (JStr "DeviceRegisteredNotification") /\
  onDeviceRegistered Sample.only_onError = false /\
  receiveRequest (Sample.accepting (inl Sample.no_deviceInfo) Sample.ok_response)
                 Sample.notification Sample.only_onError "" =
    {| handler_field := "";
       events := [];
       completion := Threw (TypeError "deviceIdentifier") |}.
Proof.
  split; [| repeat split].
  apply (classified_direct _ (JStr "DeviceRegisteredNotification")); reflexivity.
Qed.

(** ** Payloads that are not DRS notifications *)

(** C8, as the code has it. A verified notification whose payload is not
    [null] (so that properties can be read from it), holds device info
    under none of the four transport keys and has no notification-type
    discriminator is handed, as the verified envelope, to
    [onNonDRSMessage] when that handler is defined; only when it is not is
    [onError] called, with code [not_drs] and the verified envelope as raw
    context.  Exactly one of the two calls is made. *)
Theorem non_drs_fallback env body handlers handler0 parsed payload :
  delivers env body parsed payload ->
  nullish payload = false ->
  (forall k, In k transport_keys -> carries_deviceInfo payload k = false) ->
  discriminator payload = None ->
  receiveRequest env body handlers handler0 =
    {| handler_field := handler0;
       events := [if onNonDRSMessage handlers
                  then Call_onNonDRSMessage parsed
                  else Call_onError {| code := Some "not_drs";
                                       reason := errorCodes.not_drs;
                                       raw := RawBody parsed |}];
       completion := Done |}.
Proof.
  intros Hd Hn Hk Hdisc.
  assert (Hf : first_transport payload = None).
  { unfold first_transport, transport_keys. simpl.
    rewrite !Hk; simpl; tauto. }
  rewrite (receiveRequest_delivered _ _ _ _ _ _ Hd).
  unfold run, bind. rewrite (unwrap_direct _ _ _ _ Hn Hf), Hdisc.
  destruct (onNonDRSMessage handlers); reflexivity.
Qed.

Lemma non_drs_fallback_witness :
  receiveRequest (Sample.accepting (inl Sample.other_message) Sample.ok_response)
                 Sample.notification Sample.only_onError "" =
    {| handler_field := "";
       events := [Call_onError {| code := Some "not_drs";
                                  reason := errorCodes.not_drs;
                                  raw := RawBody Sample.notification |}];
       completion := Done |}.
Proof.
  apply (non_drs_fallback
           (Sample.accepting (inl Sample.other_message) Sample.ok_response)
           Sample.notification Sample.only_onError "" Sample.notification
           Sample.other_message).
  - exists JNull. repeat split.
  - reflexivity.
  - intros k Hk. simpl in Hk.
    destruct Hk as [<- | [<- | [<- | [<- | []]]]]; reflexivity.
  - reflexivity.
Defined.

(** A [Message] of [null]: the payload holds no device info under any
    transport key and has no discriminator, yet neither fallback is
    reached; the first test of the unwrapper throws. *)
Lemma null_payload_reaches_no_fallback :
  forallb (fun k => negb (carries_deviceInfo JNull k)) transport_keys = true /\
  discriminator JNull = None /\
  receiveRequest (Sample.accepting (inl JNull) Sample.ok_response)
                 Sample.notification Sample.all_handlers "" =
    {| handler_field := "";
       events := [];
       completion := Threw (TypeError "default") |}.
Proof. repeat split. Qed.

(** ** Every dispatch call takes one of the paths *)

Lemma strict_eq_string_true v s : strict_eq_string v s = true -> v = JStr s.
Proof.
  destruct v; simpl; try discriminate.
  intros H. apply String.eqb_eq in H. congruence.
Qed.

Lemma get_path_not_nullish v k ks x :
  get_path v (k :: ks) = inl x -> nullish v = false.
Proof. destruct v; simpl; congruence. Qed.

Lemma extract_not_nullish message fields :
  extract message = inl fields -> nullish message = false.
Proof.
  unfold extract, bindE.
  destruct (get_path message ["deviceInfo"; "deviceIdentifier"; "serialNumber"])
    eqn:H; [| discriminate].
  intros _. exact (get_path_not_nullish _ _ _ _ H).
Qed.

Lemma slotsSubscriptionStatus_reads message :
  nullish message = false -> exists status, slotsSubscriptionStatus message = inl status.
Proof.
  intros Hn. unfold slotsSubscriptionStatus, bindE.
  destruct (get_not_nullish message "subscriptionInfo" Hn) as [s ->].
  apply get_not_nullish. destruct (truthy s) eqn:Hs.
  - exact (truthy_not_nullish _ Hs).
  - reflexivity.
Qed.

Lemma dispatch_outcomes handlers message fields s :
  nullish message = false ->
  let r := dispatch handlers message (customerId fields) (modelId fields)
                    (serialNumber fields) (messageType fields) s in
  (exists ev, invokes handlers message fields ev /\ r = (record s ev, Returned)) \/
  (exists e, argument_faults handlers message fields e /\ r = (s, Thrown e)) \/
  (exists type defined name,
      messageType fields = JStr type /\
      In (type, defined, name) handler_table /\
      defined handlers = false /\
      r = ({| missingHandlerError_handler := name;
              trace := trace s ++ [Call_onError (missing_handler_error name)] |},
           Returned)) \/
  (known (messageType fields) = false /\ r = (s, Next tt)).
Proof.
  intros Hn r. subst r. unfold dispatch. rewrite known_tests.
  destruct (slotsSubscriptionStatus_reads _ Hn) as [status Hst].
  repeat match goal with
         | |- context [if strict_eq_string (messageType fields) ?t then _ else _] =>
             let E := fresh "E" in
             destruct (strict_eq_string (messageType fields) t) eqn:E;
             [ apply strict_eq_string_true in E | ]
         end;
    try (right; right; right; split; reflexivity);
    cbv beta iota delta [bind ret throw return_ when prop path return_onError];
    match goal with
    | |- context [if ?f handlers then _ else _] =>
        let F := fresh "F" in destruct (f handlers) eqn:F
    end;
    try (right; right; left; do 3 eexists;
         split; [eassumption | split; [| split; [eassumption | reflexivity]]];
         simpl; tauto).
  all: repeat match goal with
              | |- context [lift (build_orderInfo ?m)] =>
                  destruct (build_orderInfo m) eqn:?
              | |- context [lift (build_orderInfo_cancelled ?m)] =>
                  destruct (build_orderInfo_cancelled m) eqn:?
              | |- context [lift (slotsSubscriptionStatus _)] =>
                  rewrite Hst
              end.
  all: first
         [ left; eexists; split; [econstructor; eassumption | reflexivity]
         | right; left; eexists; split; [econstructor; eassumption | reflexivity] ].
Qed.

Lemma confirm_subscription_confirms env err parsed s :
  (Type_ parsed =? "SubscriptionConfirmation") = true ->
  exists report c,
    confirms env err parsed report c /\
    confirm_subscription env err parsed s =
      ({| missingHandlerError_handler := missingHandlerError_handler s;
          trace := trace s ++ report |},
       match c with Done => Returned | Threw e => Thrown e end).
Proof.
  intros Ht. unfold confirm_subscription. rewrite Ht.
  cbv beta iota zeta delta [when bind].
  destruct (confirmation_url parsed =? "") eqn:Hu.
  - apply String.eqb_eq in Hu. do 2 eexists.
    split; [now apply confirms_no_url | reflexivity].
  - apply String.eqb_neq in Hu.
    destruct (request env (confirmation_url parsed)) as [[ce cr] cb] eqn:Hr.
    unfold confirm_callback, record. msimpl. simpl.
    destruct (strict_eq_null err) eqn:Hnull; simpl.
    + destruct (get cr "statusCode") as [sc|e] eqn:Hsc.
      * destruct (strict_eq_number sc 200%float) eqn:H200; simpl.
        -- exists [Call_request (confirmation_url parsed)], Done.
           split; [now apply (confirms_silently _ _ _ ce cr cb sc) | reflexivity].
        -- do 2 eexists.
           split; [apply (confirms_reports _ _ _ ce cr cb); eauto |].
           unfold record; simpl. rewrite <- app_assoc. reflexivity.
      * exists [Call_request (confirmation_url parsed)], (Threw e).
        split; [now apply (confirms_faults _ _ _ ce cr cb e) | reflexivity].
    + do 2 eexists.
      split; [apply (confirms_reports _ _ _ ce cr cb); auto |].
      unfold record; simpl. rewrite <- app_assoc. reflexivity.
Qed.

(** The outcome of every call is the outcome of one of the paths. *)
Lemma receiveRequest_routed env body handlers handler0 :
  routed env body handlers handler0 (receiveRequest env body handlers handler0).
Proof.
  unfold receiveRequest.
  destruct (validator_validate env body) as [err parsed] eqn:Hv.
  destruct (truthy err) eqn:He.
  { unfold run, on_validated. msimpl. rewrite He.
    exact (routed_invalid_signature _ _ _ _ err parsed Hv He). }
  destruct (Type_ parsed =? "SubscriptionConfirmation") eqn:Ht.
  { unfold run, on_validated. cbv beta iota delta [bind when ret]. rewrite He.
    destruct (confirm_subscription_confirms env err parsed
                {| missingHandlerError_handler := handler0; trace := [] |} Ht)
      as (report & c & Hc & ->).
    destruct c; simpl; exact (routed_confirmation _ _ _ _ err parsed _ _ Hv He Ht Hc). }
  destruct (JSON_parse env (Message parsed)) as [payload|er] eqn:Hp.
  2:{ unfold run, on_validated, confirm_subscription, parse_message.
      msimpl. rewrite He, Ht, Hp.
      exact (routed_invalid_json _ _ _ _ err parsed er Hv He Ht Hp). }
  assert (Hd : delivers env body parsed payload) by (exists err; auto).
  pose proof (receiveRequest_delivered env body handlers handler0 _ _ Hd) as Hrun.
  unfold receiveRequest in Hrun. rewrite Hv in Hrun. rewrite Hrun. clear Hrun.
  unfold run, bind.
  pose proof (unwrap_outcomes handlers parsed payload
                {| missingHandlerError_handler := handler0; trace := [] |}) as Hu.
  inversion Hu as [Hn Heq | message Hc Heq | t Hn Hf Hdisc Hk Heq
                   | Hn Hf Hdisc Hh Heq | Hn Hf Hdisc Hh Heq]; clear Hu.
  - exact (routed_unwrap_faults _ _ _ _ parsed payload Hd Hn).
  - destruct (extract message) as [fields|e] eqn:Hx.
    + rewrite (extract_run _ _ _ _ Hx).
      pose proof (dispatch_outcomes handlers message fields
                    {| missingHandlerError_handler := handler0; trace := [] |}
                    (extract_not_nullish _ _ Hx)) as Hdis.
      cbv zeta in Hdis.
      destruct Hdis as [(ev & Hi & ->) | [(e & Hf & ->) | [(ty & df & nm & Hty & Hin & Hdf & ->) | (Hk & ->)]]].
      * exact (routed_handler _ _ _ _ parsed payload message fields ev Hd Hc Hx Hi).
      * exact (routed_argument_faults _ _ _ _ parsed payload message fields e Hd Hc Hx Hf).
      * exact (routed_missing_handler _ _ _ _ parsed payload message fields ty df nm
                 Hd Hc Hx Hty Hin Hdf).
      * exact (routed_dropped _ _ _ _ parsed payload message fields Hd Hc Hx Hk).
    + unfold extract_and_dispatch. msimpl. rewrite Hx.
      exact (routed_extract_faults _ _ _ _ parsed payload message e Hd Hc Hx).
  - exact (routed_unknown_message _ _ _ _ parsed payload t Hd Hn Hf Hdisc Hk).
  - pose proof (routed_non_drs _ _ handlers handler0 parsed payload Hd Hn Hf Hdisc) as R.
    rewrite Hh in R. exact R.
  - pose proof (routed_non_drs _ _ handlers handler0 parsed payload Hd Hn Hf Hdisc) as R.
    rewrite Hh in R. exact R.
Qed.

(** ** Cancelled orders *)

Lemma orderInfo_field_absent message k :
  get_path message ["orderInfo"; k] = inl JUndefined ->
  orderInfo_field message k = inl (JStr "").
Proof. intros H. unfold orderInfo_field, bindE. rewrite H. reflexivity. Qed.

Lemma build_orderInfo_cancelled_fields message orderInfo :
  build_orderInfo_cancelled message = inl orderInfo ->
  orderInfo_field message "instanceId" = inl (instanceId orderInfo) /\
  orderInfo_field message "slotId" = inl (slotId orderInfo) /\
  productInfo orderInfo = JArr [].
Proof.
  unfold build_orderInfo_cancelled, bindE.
  destruct (orderInfo_field message "instanceId") as [i|]; [| discriminate].
  destruct (orderInfo_field message "slotId") as [s|]; [| discriminate].
  intros H. injection H as <-. auto.
Qed.

(** Reading the outcome of a call off the path it took. *)
Ltac by_path env body handlers handler0 :=
  let R := fresh "R" in
  pose proof (receiveRequest_routed env body handlers handler0) as R;
  inversion R;
  match goal with
  | H : _ = receiveRequest env body handlers handler0 |- _ =>
      rewrite <- H in *; clear H
  end;
  cbn [events completion handler_field] in *.

(** C6. Whenever [receiveRequest] calls [onOrderCancelled], the order
    argument it passes has the empty list as [productInfo], whatever
    product data the payload holds, and has the empty string as
    [instanceId] (as [slotId]) when the notification has no [instanceId]
    (no [slotId]) in its [orderInfo]. *)
Theorem cancelled_order_has_no_products
    env body handlers handler0 customerId modelId serialNumber orderInfo raw :
  In (Call_onOrderCancelled customerId modelId serialNumber orderInfo raw)
     (events (receiveRequest env body handlers handler0)) ->
  productInfo orderInfo = JArr [] /\
  (get_path raw ["orderInfo"; "instanceId"] = inl JUndefined ->
   instanceId orderInfo = JStr "") /\
  (get_path raw ["orderInfo"; "slotId"] = inl JUndefined ->
   slotId orderInfo = JStr "").
Proof.
  intros Hin. by_path env body handlers handler0.
  all: try match goal with
           | H : confirms _ _ _ _ _ |- _ => inversion H; subst
           end.
  all: simpl in Hin;
    repeat match goal with
           | H : _ \/ _ |- _ => destruct H
           | H : False |- _ => destruct H
           | H : (if ?c then _ else _) = _ |- _ => destruct c
           end;
    try discriminate.
  match goal with
  | H : invokes _ _ _ _ |- _ => inversion H; subst; try congruence
  end.
  match goal with
  | H : Call_onOrderCancelled _ _ _ _ _ = Call_onOrderCancelled _ _ _ _ _ |- _ =>
      injection H as <- <- <- <- <-
  end.
  match goal with
  | H : build_orderInfo_cancelled _ = inl _ |- _ =>
      destruct (build_orderInfo_cancelled_fields _ _ H) as (Hi & Hs & Hp)
  end.
  split; [exact Hp |].
  split; intros Ha; rewrite (orderInfo_field_absent _ _ Ha) in *; congruence.
Qed.

Lemma cancelled_order_has_no_products_witness :
  productInfo {| instanceId := JStr ""; slotId := JStr ""; productInfo := JArr [] |}
    = JArr [] /\
  (get_path Sample.order_cancelled ["orderInfo"; "instanceId"] = inl JUndefined ->
   instanceId {| instanceId := JStr ""; slotId := JStr ""; productInfo := JArr [] |}
     = JStr "") /\
  (get_path Sample.order_cancelled ["orderInfo"; "slotId"] = inl JUndefined ->
   slotId {| instanceId := JStr ""; slotId := JStr ""; productInfo := JArr [] |}
     = JStr "").
Proof.
  apply (cancelled_order_has_no_products
           (Sample.accepting (inl Sample.order_cancelled) Sample.ok_response)
           Sample.notification Sample.all_handlers ""
           (JStr "C1") (JStr "M1") (JStr "S1")
           {| instanceId := JStr ""; slotId := JStr ""; productInfo := JArr [] |}
           Sample.order_cancelled).
  simpl. left. reflexivity.
Defined.

(** ** One terminal action per call *)

Lemma extract_messageType message fields :
  extract message = inl fields ->
  get_path message ["notificationInfo"; "notificationType"] = inl (messageType fields).
Proof.
  unfold extract, bindE.
  destruct (get_path message ["deviceInfo"; "deviceIdentifier"; "serialNumber"]);
    [| discriminate].
  destruct (get_path message ["deviceInfo"; "productIdentifier"; "modelId"]);
    [| discriminate].
  destruct (get_path message ["notificationInfo"; "notificationType"]);
    [| discriminate].
  destruct (get_path message ["customerInfo"; "directedCustomerId"]);
    [| discriminate].
  intros H. injection H as <-. reflexivity.
Qed.

Lemma invokes_handler_invocation handlers message fields ev :
  invokes handlers message fields ev -> handler_invocation ev = true.
Proof. intros []; reflexivity. Qed.

(** A payload classified where it stands is never dropped. *)
Lemma classified_unknown_nested payload message fields :
  classified payload message ->
  extract message = inl fields ->
  known (messageType fields) = false ->
  exists k, first_transport payload = Some k /\ get payload k = inl message.
Proof.
  intros [k sub Hf Hg | t Hn Hf Hd Hk] Hx Hu.
  - eauto.
  - apply discriminator_path in Hd. rewrite (extract_messageType _ _ Hx) in Hd.
    congruence.
Qed.

(** C1, as the code has it. A dispatch call never performs more than one
    terminal action: its events are none, or one handler invocation, or one
    error report, or one confirmation request (followed by the report of
    its failure, if any).  Leaving aside the payloads that were unwrapped
    from a transport key and name a type outside the six known ones, a call
    that completes without a fault performs exactly one.  A call whose
    callback faults on a property read invokes no handler and reports no
    error. *)
Theorem at_most_one_terminal_action env body handlers handler0 :
  (events (receiveRequest env body handlers handler0) = [] \/
   one_terminal_action (events (receiveRequest env body handlers handler0))) /\
  (~ nested_unknown_type env body ->
   completion (receiveRequest env body handlers handler0) = Done ->
   one_terminal_action (events (receiveRequest env body handlers handler0))) /\
  (forall e,
      completion (receiveRequest env body handlers handler0) = Threw e ->
      events (receiveRequest env body handlers handler0) = [] \/
      exists url, events (receiveRequest env body handlers handler0) = [Call_request url]).
Proof.
  by_path env body handlers handler0.
  all: try match goal with
           | H : confirms _ _ _ _ _ |- _ => inversion H; subst
           end.
  all: assert (Hone : forall evs,
                  one_terminal_action evs ->
                  (evs = [] \/ one_terminal_action evs) /\
                  (~ nested_unknown_type env body -> Done = Done ->
                   one_terminal_action evs) /\
                  (forall e, Done = Threw e ->
                             evs = [] \/ exists url, evs = [Call_request url]))
         by (intros; repeat split; auto; discriminate).
  all: try solve
         [ apply Hone;
           first [ apply one_error_report
                 | apply one_confirmation_attempt
                 | apply one_failed_confirmation_attempt
                 | solve [ apply one_handler_invocation;
                           eauto using invokes_handler_invocation ]
                 | destruct (onNonDRSMessage handlers);
                   [ now apply one_handler_invocation | apply one_error_report ] ] ].
  all: try solve [ repeat split;
                   [ auto using one_confirmation_attempt
                   | discriminate
                   | intros; eauto ] ].
  repeat split; [left; reflexivity | | discriminate].
  intros Hnot _. exfalso. apply Hnot.
  match goal with
  | Hc : classified _ _, Hx : extract _ = inl _, Hk : known _ = false |- _ =>
      destruct (classified_unknown_nested _ _ _ Hc Hx Hk) as (k & Hf & Hg)
  end.
  unfold nested_unknown_type. eauto 10.
Qed.

Lemma at_most_one_terminal_action_witness :
  one_terminal_action
    (events (receiveRequest
               (Sample.accepting (inl Sample.order_placed) Sample.ok_response)
               Sample.notification Sample.all_handlers "")).
Proof.
  apply (proj1 (proj2 (at_most_one_terminal_action
                  (Sample.accepting (inl Sample.order_placed) Sample.ok_response)
                  Sample.notification Sample.all_handlers ""))).
  - intros (parsed & payload & k & message & fields & Hd & Hf & _).
    destruct Hd as (err & _ & _ & _ & Hp). simpl in Hp.
    injection Hp as <-. discriminate.
  - reflexivity.
Defined.

(** A verified notification with a known type and no device info: the
    callback faults while reading the serial number, and the call performs
    no terminal action at all. *)
Lemma no_terminal_action_without_deviceInfo :
  receiveRequest (Sample.accepting (inl Sample.no_deviceInfo) Sample.ok_response)
                 Sample.notification Sample.all_handlers "" =
    {| handler_field := "";
       events := [];
       completion := Threw (TypeError "deviceIdentifier") |} /\
  ~ one_terminal_action
      (events (receiveRequest
                 (Sample.accepting (inl Sample.no_deviceInfo) Sample.ok_response)
                 Sample.notification Sample.all_handlers "")).
Proof.
  split; [reflexivity |].
  intros H. inversion H.
Qed.

(** ** Faults *)

Lemma get_path_app m ks k :
  get_path m (ks ++ [k]) =
    match get_path m ks with
    | inl v => get v k
    | inr e => inr e
    end.
Proof.
  revert m. induction ks as [| k0 ks IH]; intros m; simpl.
  - destruct (get m k); reflexivity.
  - destruct (get m k0) as [x|e]; [apply IH | reflexivity].
Qed.

(** A property can be read from whatever is present. *)
Lemma present_get m ks k :
  present m ks = true -> exists v, get_path m (ks ++ [k]) = inl v.
Proof.
  unfold present. rewrite get_path_app.
  destruct (get_path m ks) as [v|]; [| discriminate].
  intros H. apply get_not_nullish. now apply negb_true_iff in H.
Qed.

(** And from nothing else. *)
Lemma absent_get m ks k :
  present m ks = false -> exists e, get_path m (ks ++ [k]) = inr e.
Proof.
  unfold present. rewrite get_path_app.
  destruct (get_path m ks) as [v|e]; [| eauto].
  intros H. apply negb_false_iff in H. rewrite (get_nullish _ _ H). eauto.
Qed.

Lemma fields_present_extract message :
  fields_present message = true -> exists fields, extract message = inl fields.
Proof.
  unfold fields_present. rewrite !andb_true_iff.
  intros [[[Hs Hm] Ht] Hc].
  destruct (present_get _ _ "serialNumber" Hs) as [sn Hsn].
  destruct (present_get _ _ "modelId" Hm) as [mi Hmi].
  destruct (present_get _ _ "notificationType" Ht) as [nt Hnt].
  destruct (present_get _ _ "directedCustomerId" Hc) as [ci Hci].
  simpl app in *. unfold extract, bindE. rewrite Hsn, Hmi, Hnt, Hci. eauto.
Qed.

Lemma fields_absent_extract message :
  fields_present message = false -> exists e, extract message = inr e.
Proof.
  unfold fields_present, extract, bindE. intros H.
  destruct (present message ["deviceInfo"; "deviceIdentifier"]) eqn:Hs;
    [| destruct (absent_get _ _ "serialNumber" Hs) as [e He];
       simpl app in He; rewrite He; eauto ].
  destruct (get_path message ["deviceInfo"; "deviceIdentifier"; "serialNumber"]);
    [| eauto].
  destruct (present message ["deviceInfo"; "productIdentifier"]) eqn:Hm;
    [| destruct (absent_get _ _ "modelId" Hm) as [e He];
       simpl app in He; rewrite He; eauto ].
  destruct (get_path message ["deviceInfo"; "productIdentifier"; "modelId"]);
    [| eauto].
  destruct (present message ["notificationInfo"]) eqn:Ht;
    [| destruct (absent_get _ _ "notificationType" Ht) as [e He];
       simpl app in He; rewrite He; eauto ].
  destruct (get_path message ["notificationInfo"; "notificationType"]);
    [| eauto].
  destruct (present message ["customerInfo"]) eqn:Hc; [discriminate |].
  destruct (absent_get _ _ "directedCustomerId" Hc) as [e He].
  simpl app in He. rewrite He. eauto.
Qed.

Lemma well_formed_extract message :
  well_formed message = true -> exists fields, extract message = inl fields.
Proof.
  unfold well_formed. rewrite andb_true_iff.
  intros [H _]. exact (fields_present_extract _ H).
Qed.

Lemma present_orderInfo_field message k :
  present message ["orderInfo"] = true ->
  exists v, orderInfo_field message k = inl v.
Proof.
  intros Hp. destruct (present_get _ _ k Hp) as [v Hv]. simpl app in Hv.
  unfold orderInfo_field, bindE. rewrite Hv. destruct (truthy v); eauto.
Qed.

Lemma present_build_orderInfo message :
  present message ["orderInfo"] = true ->
  (exists o, build_orderInfo message = inl o) /\
  (exists o, build_orderInfo_cancelled message = inl o).
Proof.
  intros Hp.
  destruct (present_orderInfo_field _ "instanceId" Hp) as [i Hi].
  destruct (present_orderInfo_field _ "slotId" Hp) as [s Hs].
  destruct (present_get _ _ "productInfo" Hp) as [p Hpi]. simpl app in Hpi.
  unfold build_orderInfo, build_orderInfo_cancelled, bindE.
  rewrite Hi, Hs, Hpi. eauto.
Qed.

Lemma well_formed_orderInfo message fields :
  well_formed message = true ->
  extract message = inl fields ->
  order_notification (messageType fields) = true ->
  present message ["orderInfo"] = true.
Proof.
  unfold well_formed. rewrite andb_true_iff. intros [_ Ho] Hx Ht.
  rewrite (extract_messageType _ _ Hx), Ht in Ho. exact Ho.
Qed.

(** C2, as the code has it. Outside the confirmation request, a dispatch
    call throws nothing when the payload is not [null] and the message
    handed to field extraction is well formed: the containers the fields
    are read from are there.  Field extraction itself is not guarded: when
    a container of one of the four fields is missing, the read throws and
    nothing is reported. *)
Theorem well_formed_never_throws env body handlers handler0 :
  (~ confirmation_request env body ->
   (forall parsed payload,
       delivers env body parsed payload ->
       nullish payload = false /\
       forall message, classified payload message -> well_formed message = true) ->
   completion (receiveRequest env body handlers handler0) = Done) /\
  (forall parsed payload message,
      delivers env body parsed payload ->
      classified payload message ->
      fields_present message = false ->
      exists e,
        receiveRequest env body handlers handler0 =
          {| handler_field := handler0; events := []; completion := Threw e |}).
Proof.
  split.
  2:{ intros parsed payload message Hd Hc Ha.
      destruct (fields_absent_extract _ Ha) as [e He]. exists e.
      rewrite (receiveRequest_delivered _ _ _ _ _ _ Hd).
      unfold run, bind. rewrite (unwrap_classified _ _ _ _ _ Hc).
      unfold extract_and_dispatch. msimpl. rewrite He. reflexivity. }
  intros Hnc Hwf. by_path env body handlers handler0; try reflexivity.
  - (* the confirmation path *)
    match goal with
    | H : confirms _ _ _ _ _ |- _ => inversion H; subst; try reflexivity
    end.
    exfalso. apply Hnc. unfold confirmation_request. eauto 10.
  - (* no property can be read from the payload *)
    match goal with
    | Hd : delivers _ _ _ _ |- _ => destruct (Hwf _ _ Hd) as [Hn _]
    end.
    congruence.
  - (* field extraction faults *)
    match goal with
    | Hd : delivers _ _ _ _, Hc : classified _ _ |- _ =>
        destruct (Hwf _ _ Hd) as [_ Hm]; specialize (Hm _ Hc);
        destruct (well_formed_extract _ Hm) as [f Hf]
    end.
    congruence.
  - (* building the order argument faults *)
    match goal with
    | Hd : delivers _ _ _ _, Hc : classified _ _, Hx : extract _ = inl _,
      Ha : argument_faults _ _ _ _ |- _ =>
        destruct (Hwf _ _ Hd) as [_ Hm]; specialize (Hm _ Hc);
        assert (Hp : present message ["orderInfo"] = true)
          by (apply (well_formed_orderInfo _ _ Hm Hx);
              unfold order_notification;
              inversion Ha as [? Ht | ? Ht | ? Ht]; rewrite Ht; reflexivity);
        destruct (present_build_orderInfo _ Hp) as [[o Ho] [o' Ho']];
        inversion Ha; congruence
    end.
Qed.

Lemma well_formed_never_throws_witness :
  completion (receiveRequest
                (Sample.accepting (inl Sample.order_placed) Sample.ok_response)
                Sample.notification Sample.all_handlers "") = Done.
Proof.
  apply (proj1 (well_formed_never_throws
                  (Sample.accepting (inl Sample.order_placed) Sample.ok_response)
                  Sample.notification Sample.all_handlers "")).
  - intros (err & parsed & Hv & _ & Ht & _). simpl in Hv.
    injection Hv as _ <-. discriminate.
  - intros parsed payload (err & Hv & _ & _ & Hp). simpl in Hv, Hp.
    injection Hp as <-. split; [reflexivity |].
    intros message Hc.
    destruct Hc as [k sub Hf Hg | t Hn Hf Hd Hk]; [discriminate | reflexivity].
Defined.

(** A verified device registration with no [customerInfo]: the read of
    [directedCustomerId] throws, and nothing is reported. *)
Lemma field_extraction_throws :
  receiveRequest (Sample.accepting (inl Sample.no_customerInfo) Sample.ok_response)
                 Sample.notification Sample.all_handlers "" =
    {| handler_field := "";
       events := [];
       completion := Threw (TypeError "directedCustomerId") |}.
Proof. reflexivity. Qed.

(** ** Unknown notification types *)

(** X8. A payload classified where it stands, with a truthy discriminator
    outside the known types, is answered by one [onError] with code
    [unknown_message] and the discriminator, as it is, as raw context; no
    handler is called. *)
Lemma unknown_message_reported env body handlers handler0 parsed payload t :
  delivers env body parsed payload ->
  nullish payload = false ->
  first_transport payload = None ->
  discriminator payload = Some t ->
  known t = false ->
  receiveRequest env body handlers handler0 =
    {| handler_field := handler0;
       events := [Call_onError {| code := Some "unknown_message";
                                  reason := errorCodes.unknown_message;
                                  raw := RawMessage t |}];
       completion := Done |}.
Proof.
  intros Hd Hn Hf Hdisc Hk.
  rewrite (receiveRequest_delivered _ _ _ _ _ _ Hd).
  unfold run, bind. rewrite (unwrap_direct _ _ _ _ Hn Hf), Hdisc, Hk. reflexivity.
Qed.

(** C3, where the code departs from it. A type outside the six known
    ones that arrives under a transport key is not looked up in
    [knownMessageTypes]: the unwrapper goes on with the nested message, the
    dispatch chain matches none of its six cases, and the callback ends
    without calling anything.  [onError] is not called, with
    [unknown_message] or any other code, and no handler is called. *)
Theorem wrapped_unknown_type_not_reported
    env body handlers handler0 parsed payload k message fields :
  delivers env body parsed payload ->
  first_transport payload = Some k ->
  get payload k = inl message ->
  extract message = inl fields ->
  known (messageType fields) = false ->
  receiveRequest env body handlers handler0 =
    {| handler_field := handler0; events := []; completion := Done |}.
Proof.
  intros Hd Hf Hg Hx Hk.
  rewrite (receiveRequest_delivered _ _ _ _ _ _ Hd).
  unfold run, bind. rewrite (unwrap_nested _ _ _ _ _ _ Hf Hg).
  rewrite (extract_run _ _ _ _ Hx).
  destruct (dispatch_outcomes handlers message fields
              {| missingHandlerError_handler := handler0; trace := [] |}
              (extract_not_nullish _ _ Hx))
    as [(ev & Hi & _) | [(e & Ha & _) | [(ty & df & nm & Hty & Hin & _) | (_ & ->)]]].
  - exfalso. rewrite known_tests in Hk.
    inversion Hi as [Ht ? | Ht ? | ? Ht ? ? | ? Ht ? ? | ? Ht ? ? | ? Ht ? ?];
      rewrite Ht in Hk; discriminate.
  - exfalso. rewrite known_tests in Hk.
    inversion Ha as [? Ht ? ? | ? Ht ? ? | ? Ht ? ?]; rewrite Ht in Hk; discriminate.
  - exfalso. rewrite known_tests, Hty in Hk. simpl in Hin.
    repeat (destruct Hin as [Hin | Hin]; [injection Hin as <- _ _; discriminate |]).
    contradiction.
  - reflexivity.
Qed.

(** The payload
    [{"default": {"deviceInfo": ..., "customerInfo": ...,
                  "notificationInfo": {"notificationType": "FooBar"}}}]. *)
Lemma wrapped_unknown_type_not_reported_witness :
  receiveRequest (Sample.accepting (inl Sample.wrapped_unknown) Sample.ok_response)
                 Sample.notification Sample.all_handlers "" =
    {| handler_field := ""; events := []; completion := Done |}.
Proof.
  apply (wrapped_unknown_type_not_reported
           (Sample.accepting (inl Sample.wrapped_unknown) Sample.ok_response)
           Sample.notification Sample.all_handlers ""
           Sample.notification Sample.wrapped_unknown "default"
           (Sample.drs_message "FooBar" [])
           {| serialNumber := JStr "S1"; modelId := JStr "M1";
              messageType := JStr "FooBar"; customerId := JStr "C1" |}).
  - exists JNull. repeat split.
  - reflexivity.
  - reflexivity.
  - reflexivity.
  - reflexivity.
Defined.

(** ** The confirmation response *)

(** X7. For a verified confirmation envelope with a usable URL, the URL
    is requested once, and a response whose status is not 200 is then
    reported by one [onError] with code
    [invalid_subscription_request_response] and the error, the response and
    the body of the callback as raw context. *)
Lemma non_200_reported env body handlers handler0 err parsed
    confirmErr confirmResponse confirmBody statusCode :
  validator_validate env body = (err, parsed) ->
  truthy err = false ->
  (Type_ parsed =? "SubscriptionConfirmation") = true ->
  confirmation_url parsed <> "" ->
  request env (confirmation_url parsed) = (confirmErr, confirmResponse, confirmBody) ->
  get confirmResponse "statusCode" = inl statusCode ->
  strict_eq_number statusCode 200%float = false ->
  receiveRequest env body handlers handler0 =
    {| handler_field := handler0;
       events := [Call_request (confirmation_url parsed);
                  Call_onError
                    (confirmation_error confirmErr confirmResponse confirmBody)];
       completion := Done |}.
Proof.
  intros Hv He Ht Hu Hr Hs H200.
  unfold receiveRequest. rewrite Hv.
  unfold run, on_validated, confirm_subscription, confirm_callback.
  cbv beta iota zeta delta [bind when ret].
  apply String.eqb_neq in Hu.
  rewrite He, Ht, Hu. msimpl. simpl. rewrite Hr. msimpl.
  destruct (strict_eq_null err); simpl; [rewrite Hs; simpl; rewrite H200 |];
    reflexivity.
Qed.

(** C4, where the code departs from it. The test of line 138 reads the
    verifier's [err], which is [null] once verification succeeded, and
    never [confirmErr].  So whatever error the GET calls back with: when
    there is no response, reading [statusCode] throws and nothing is
    reported; when there is a response with status 200, nothing is
    reported either. *)
Theorem transport_error_not_reported env body handlers handler0 parsed
    confirmErr confirmResponse confirmBody :
  validator_validate env body = (JNull, parsed) ->
  (Type_ parsed =? "SubscriptionConfirmation") = true ->
  confirmation_url parsed <> "" ->
  request env (confirmation_url parsed) = (confirmErr, confirmResponse, confirmBody) ->
  (nullish confirmResponse = true ->
   receiveRequest env body handlers handler0 =
     {| handler_field := handler0;
        events := [Call_request (confirmation_url parsed)];
        completion := Threw (TypeError "statusCode") |}) /\
  (forall statusCode,
      get confirmResponse "statusCode" = inl statusCode ->
      strict_eq_number statusCode 200%float = true ->
      receiveRequest env body handlers handler0 =
        {| handler_field := handler0;
           events := [Call_request (confirmation_url parsed)];
           completion := Done |}).
Proof.
  intros Hv Ht Hu Hr.
  apply String.eqb_neq in Hu.
  unfold receiveRequest. rewrite Hv.
  unfold run, on_validated, confirm_subscription, confirm_callback.
  cbv beta iota zeta delta [bind when ret].
  rewrite Ht, Hu. simpl. rewrite Hr. msimpl.
  split.
  - intros Hn. rewrite (get_nullish _ _ Hn). reflexivity.
  - intros sc Hs H200. rewrite Hs. simpl. rewrite H200. reflexivity.
Qed.

(** The GET fails to connect: [request] calls back with the error and no
    response. *)
Lemma transport_error_not_reported_witness :
  receiveRequest (Sample.accepting (inl (JObj [])) Sample.transport_error)
                 Sample.confirmation Sample.only_onError "" =
    {| handler_field := "";
       events := [Call_request
                    "https://sns.us-east-1.amazonaws.com/?Action=ConfirmSubscription"];
       completion := Threw (TypeError "statusCode") |}.
Proof.
  assert (Hu : confirmation_url Sample.confirmation <> "") by discriminate.
  apply (proj1 (transport_error_not_reported
                  (Sample.accepting (inl (JObj [])) Sample.transport_error)
                  Sample.confirmation Sample.only_onError "" Sample.confirmation
                  (Sample.Error "connect ECONNREFUSED") JUndefined JUndefined
                  eq_refl eq_refl Hu eq_refl)).
  reflexivity.
Defined.

(** The GET reports an error together with a 200 response: the error is
    ignored. *)
Example error_with_200_ignored :
  receiveRequest (Sample.accepting (inl (JObj [])) Sample.error_with_200)
                 Sample.confirmation Sample.only_onError "" =
    {| handler_field := "";
       events := [Call_request
                    "https://sns.us-east-1.amazonaws.com/?Action=ConfirmSubscription"];
       completion := Done |}.
Proof. reflexivity. Qed.

(** A 403 response is reported. *)
Example forbidden_response_reported :
  events (receiveRequest (Sample.accepting (inl (JObj [])) Sample.forbidden_response)
                         Sample.confirmation Sample.only_onError "") =
    [ Call_request "https://sns.us-east-1.amazonaws.com/?Action=ConfirmSubscription";
      Call_onError
        (confirmation_error JNull (JObj [("statusCode", JNum 403%float)])
                            (JStr "Forbidden")) ].
Proof. reflexivity. Qed.

(** ** The paths determine the outcome *)

Lemma dispatch_invokes handlers message fields ev s :
  invokes handlers message fields ev ->
  dispatch handlers message (customerId fields) (modelId fields)
           (serialNumber fields) (messageType fields) s = (record s ev, Returned).
Proof.
  intros [Ht Hh | Ht Hh | oi Ht Hh Hb | oi Ht Hh Hb | oi Ht Hh Hb | st Ht Hh Hb];
    unfold dispatch; rewrite Ht; simpl; msimpl; rewrite Hh, ?Hb; reflexivity.
Qed.

Lemma dispatch_argument_faults handlers message fields e s :
  argument_faults handlers message fields e ->
  dispatch handlers message (customerId fields) (modelId fields)
           (serialNumber fields) (messageType fields) s = (s, Thrown e).
Proof.
  intros [e' Ht Hh Hb | e' Ht Hh Hb | e' Ht Hh Hb];
    unfold dispatch; rewrite Ht; simpl; msimpl; rewrite Hh, Hb; reflexivity.
Qed.

Lemma dispatch_unknown handlers message customerId modelId serialNumber t s :
  known t = false ->
  dispatch handlers message customerId modelId serialNumber t s = (s, Next tt).
Proof.
  rewrite known_tests. intros Hk. unfold dispatch.
  repeat match goal with
         | |- context [if strict_eq_string t ?n then _ else _] =>
             destruct (strict_eq_string t n); [discriminate |]
         end.
  reflexivity.
Qed.

Lemma confirm_subscription_run env err parsed report c s :
  (Type_ parsed =? "SubscriptionConfirmation") = true ->
  confirms env err parsed report c ->
  confirm_subscription env err parsed s =
    ({| missingHandlerError_handler := missingHandlerError_handler s;
        trace := trace s ++ report |},
     match c with Done => Returned | Threw e => Thrown e end).
Proof.
  intros Ht Hc. unfold confirm_subscription. rewrite Ht.
  cbv beta iota zeta delta [when bind].
  destruct Hc as [Hu | ce cr cb Hu Hr Hf | ce cr cb sc Hu Hr Hn Hs H200
                  | ce cr cb e Hu Hr Hn Hs].
  - rewrite Hu. reflexivity.
  - apply String.eqb_neq in Hu. rewrite Hu, Hr.
    unfold confirm_callback. msimpl. simpl.
    destruct (strict_eq_null err) eqn:Hn; simpl.
    + destruct Hf as [Hf | (sc & Hs & H200)]; [discriminate |].
      rewrite Hs. simpl. rewrite H200. simpl.
      unfold record; simpl. rewrite <- app_assoc. reflexivity.
    + unfold record; simpl. rewrite <- app_assoc. reflexivity.
  - apply String.eqb_neq in Hu. rewrite Hu, Hr.
    unfold confirm_callback. msimpl. simpl.
    rewrite Hn. simpl. rewrite Hs. simpl. rewrite H200. reflexivity.
  - apply String.eqb_neq in Hu. rewrite Hu, Hr.
    unfold confirm_callback. msimpl. simpl.
    rewrite Hn. simpl. rewrite Hs. reflexivity.
Qed.

(** A call whose conditions are those of a path leaves the outcome of that
    path. *)
Lemma routed_outcome env body handlers handler0 o :
  routed env body handlers handler0 o ->
  receiveRequest env body handlers handler0 = o.
Proof.
  intros [ err parsed Hv He
         | err parsed report c Hv He Ht Hc
         | err parsed er Hv He Ht Hp
         | parsed payload Hd Hn
         | parsed payload t Hd Hn Hf Hdisc Hk
         | parsed payload Hd Hn Hf Hdisc
         | parsed payload message e Hd Hc Hx
         | parsed payload message fields ev Hd Hc Hx Hi
         | parsed payload message fields e Hd Hc Hx Ha
         | parsed payload message fields ty df nm Hd Hc Hx Hty Hin Hdf
         | parsed payload message fields Hd Hc Hx Hk ].
  - unfold receiveRequest. rewrite Hv.
    unfold run, on_validated. msimpl. rewrite He. reflexivity.
  - unfold receiveRequest. rewrite Hv.
    unfold run, on_validated. cbv beta iota delta [bind when ret]. rewrite He.
    rewrite (confirm_subscription_run _ _ _ _ _ _ Ht Hc).
    destruct c; reflexivity.
  - unfold receiveRequest. rewrite Hv.
    unfold run, on_validated, confirm_subscription, parse_message.
    msimpl. rewrite He, Ht, Hp. reflexivity.
  - rewrite (receiveRequest_delivered _ _ _ _ _ _ Hd).
    unfold run, bind. rewrite (unwrap_nullish _ _ _ _ Hn). reflexivity.
  - rewrite (receiveRequest_delivered _ _ _ _ _ _ Hd).
    unfold run, bind. rewrite (unwrap_direct _ _ _ _ Hn Hf), Hdisc, Hk. reflexivity.
  - rewrite (receiveRequest_delivered _ _ _ _ _ _ Hd).
    unfold run, bind. rewrite (unwrap_direct _ _ _ _ Hn Hf), Hdisc.
    destruct (onNonDRSMessage handlers); reflexivity.
  - rewrite (receiveRequest_delivered _ _ _ _ _ _ Hd).
    unfold run, bind. rewrite (unwrap_classified _ _ _ _ _ Hc).
    unfold extract_and_dispatch. msimpl. rewrite Hx. reflexivity.
  - rewrite (receiveRequest_delivered _ _ _ _ _ _ Hd).
    unfold run, bind. rewrite (unwrap_classified _ _ _ _ _ Hc).
    rewrite (extract_run _ _ _ _ Hx), (dispatch_invokes _ _ _ _ _ Hi). reflexivity.
  - rewrite (receiveRequest_delivered _ _ _ _ _ _ Hd).
    unfold run, bind. rewrite (unwrap_classified _ _ _ _ _ Hc).
    rewrite (extract_run _ _ _ _ Hx), (dispatch_argument_faults _ _ _ _ _ Ha).
    reflexivity.
  - rewrite (receiveRequest_delivered _ _ _ _ _ _ Hd).
    unfold run, bind. rewrite (unwrap_classified _ _ _ _ _ Hc).
    rewrite (extract_run _ _ _ _ Hx), Hty.
    rewrite (dispatch_missing_handler _ _ _ _ _ _ _ _ _ Hin Hdf). reflexivity.
  - rewrite (receiveRequest_delivered _ _ _ _ _ _ Hd).
    unfold run, bind. rewrite (unwrap_classified _ _ _ _ _ Hc).
    rewrite (extract_run _ _ _ _ Hx), (dispatch_unknown _ _ _ _ _ _ _ Hk).
    reflexivity.
Qed.

(** ** The validate-only entry point, in full *)

(** X1. [validate] hands back a promise exactly when both the handler set
    and the callback are omitted.  The promise is rejected with an
    [invalid_signature] error wrapping the verifier's error when there is
    one and resolved with the verified envelope otherwise, and no callback
    is called. *)
Theorem validate_promise env message handlers callback :
  (is_promise (returned (validate env message handlers callback)) = true <->
   handlers = None /\ callback = false) /\
  (handlers = None -> callback = false ->
   validate env message handlers callback =
     {| returned :=
          Returns_promise
            (if truthy (fst (validator_validate env message))
             then Rejected (invalid_signature_error
                              (fst (validator_validate env message)))
             else Resolved (snd (validator_validate env message)));
        validate_events := [];
        validate_completion := Done |}).
Proof.
  unfold validate.
  destruct (validator_validate env message) as [err parsed]. split.
  - destruct handlers as [h|], callback; simpl; split;
      try discriminate; try (intros [? ?]; discriminate); auto.
  - intros -> ->. reflexivity.
Qed.

(** X2. In the callback style, a verification failure goes to
    [handlers.onError] when the supplied set has that member, also when a
    callback was supplied with it; else to the callback, if there is one,
    together with the message as it was passed in.  A set without
    [onError] and no callback leave the failure unreported: the code falls
    through to the routing of a success and calls
    [onOnlyValidateMessage], if the set has it. *)
Theorem validate_failure_routing env message handlers callback err parsed :
  validator_validate env message = (err, parsed) ->
  truthy err = true ->
  isPromise handlers callback = false ->
  validate env message handlers callback =
    {| returned := Returns_undefined;
       validate_events :=
         if supplied_with handlers onError
         then [Call_onError (invalid_signature_error err)]
         else if callback
         then [Call_callback (Some (invalid_signature_error err)) message]
         else if supplied_with handlers has_onOnlyValidateMessage
         then [Call_onOnlyValidateMessage parsed]
         else [];
       validate_completion := Done |}.
Proof.
  intros Hv He Hp. unfold validate. rewrite Hv, Hp.
  unfold run, on_only_validated. msimpl. rewrite He.
  destruct (supplied_with handlers onError); [reflexivity |].
  destruct callback; [reflexivity |].
  destruct (supplied_with handlers has_onOnlyValidateMessage); reflexivity.
Qed.

Lemma validate_failure_routing_witness :
  validate (Sample.rejecting (Sample.Error "The message signature is invalid."))
           Sample.notification (Some Edge.without_onError) false =
    {| returned := Returns_undefined;
       validate_events := [Call_onOnlyValidateMessage Sample.notification];
       validate_completion := Done |}.
Proof.
  apply (validate_failure_routing
           (Sample.rejecting (Sample.Error "The message signature is invalid."))
           Sample.notification (Some Edge.without_onError) false
           (Sample.Error "The message signature is invalid.") Sample.notification);
    reflexivity.
Defined.

(** A set with [onError] gets the failure there, callback or not. *)
Example validate_failure_to_onError :
  validate (Sample.rejecting (Sample.Error "The message signature is invalid."))
           Sample.notification (Some Sample.all_handlers_object) true =
    {| returned := Returns_undefined;
       validate_events :=
         [Call_onError (invalid_signature_error
                          (Sample.Error "The message signature is invalid."))];
       validate_completion := Done |}.
Proof. reflexivity. Qed.

(** X3. In the callback style, a verified envelope goes to
    [handlers.onOnlyValidateMessage] when the handler set defines it, also
    when a callback was supplied with it; else to the callback, with a
    [null] error; else nowhere. *)
Theorem validate_success_routing env message handlers callback err parsed :
  validator_validate env message = (err, parsed) ->
  truthy err = false ->
  isPromise handlers callback = false ->
  validate env message handlers callback =
    {| returned := Returns_undefined;
       validate_events :=
         if supplied_with handlers has_onOnlyValidateMessage
         then [Call_onOnlyValidateMessage parsed]
         else if callback then [Call_callback None parsed] else [];
       validate_completion := Done |}.
Proof.
  intros Hv He Hp. unfold validate. rewrite Hv, Hp.
  unfold run, on_only_validated. msimpl. rewrite He.
  destruct (supplied_with handlers has_onOnlyValidateMessage); [reflexivity |].
  destruct callback; reflexivity.
Qed.

Lemma validate_success_routing_witness :
  validate (Sample.accepting (inl Sample.order_placed) Sample.ok_response)
           Sample.notification (Some Sample.all_handlers_object) true =
    {| returned := Returns_undefined;
       validate_events := [Call_onOnlyValidateMessage Sample.notification];
       validate_completion := Done |}.
Proof.
  apply (validate_success_routing
           (Sample.accepting (inl Sample.order_placed) Sample.ok_response)
           Sample.notification (Some Sample.all_handlers_object) true
           JNull Sample.notification);
    reflexivity.
Defined.

(** X4. [validate] verifies and does nothing else: it never throws, it
    makes at most one call, and that call is of [onError],
    [onOnlyValidateMessage] or the plain callback; it requests nothing,
    parses nothing and calls no notification handler, whatever the
    [Message] holds. *)
Theorem validate_only_verifies env message handlers callback :
  validate_completion (validate env message handlers callback) = Done /\
  (length (validate_events (validate env message handlers callback)) <= 1)%nat /\
  forall ev,
    In ev (validate_events (validate env message handlers callback)) ->
    validate_only_call ev = true \/ exists error, ev = Call_onError error.
Proof.
  unfold validate.
  destruct (validator_validate env message) as [err parsed].
  destruct (isPromise handlers callback) eqn:Hp.
  - simpl. split; [reflexivity | split; [auto | intros ev []]].
  - unfold run, on_only_validated. msimpl.
    destruct (truthy err), (supplied_with handlers onError),
             (supplied_with handlers has_onOnlyValidateMessage), callback;
      simpl;
      (split; [reflexivity | split; [auto |]]);
      intros ev Hin; simpl in Hin;
      repeat match goal with
             | H : _ \/ _ |- _ => destruct H
             | H : False |- _ => destruct H
             end;
      subst; eauto.
Qed.

(** ** The paths of [receiveRequest], one by one *)

(** X5. A verified confirmation envelope with no [SubscribeURL], or an
    empty one, is answered by one [onError] with code
    [invalid_subscription_request] and the envelope as raw context;
    nothing is requested. *)
Theorem confirmation_without_url env body handlers handler0 err parsed :
  validator_validate env body = (err, parsed) ->
  truthy err = false ->
  (Type_ parsed =? "SubscriptionConfirmation") = true ->
  SubscribeURL parsed = None \/ SubscribeURL parsed = Some "" ->
  receiveRequest env body handlers handler0 =
    {| handler_field := handler0;
       events := [Call_onError {| code := Some "invalid_subscription_request";
                                  reason := errorCodes.invalid_subscription_request;
                                  raw := RawBody parsed |}];
       completion := Done |}.
Proof.
  intros Hv He Ht Hu. apply routed_outcome.
  apply (routed_confirmation _ _ _ _ err parsed _ _ Hv He Ht).
  apply confirms_no_url. unfold confirmation_url.
  destruct Hu as [-> | ->]; reflexivity.
Qed.

Lemma confirmation_without_url_witness :
  receiveRequest (Sample.accepting (inl Sample.order_placed) Sample.ok_response)
                 (Sample.envelope "SubscriptionConfirmation" (Some ""))
                 Sample.all_handlers "" =
    {| handler_field := "";
       events := [Call_onError
                    {| code := Some "invalid_subscription_request";
                       reason := errorCodes.invalid_subscription_request;
                       raw := RawBody
                                (Sample.envelope "SubscriptionConfirmation" (Some "")) |}];
       completion := Done |}.
Proof.
  apply (confirmation_without_url
           (Sample.accepting (inl Sample.order_placed) Sample.ok_response)
           (Sample.envelope "SubscriptionConfirmation" (Some ""))
           Sample.all_handlers "" JNull
           (Sample.envelope "SubscriptionConfirmation" (Some "")));
    try reflexivity.
  right. reflexivity.
Defined.

(** X6. A verified notification whose [Message] [JSON.parse] rejects is
    answered by one [onError] with code [invalid_json] and the parser's
    exception as raw context; no handler is called, [onNonDRSMessage]
    included. *)
Theorem invalid_json_reported env body handlers handler0 err parsed er :
  validator_validate env body = (err, parsed) ->
  truthy err = false ->
  (Type_ parsed =? "SubscriptionConfirmation") = false ->
  JSON_parse env (Message parsed) = inr er ->
  receiveRequest env body handlers handler0 =
    {| handler_field := handler0;
       events := [Call_onError {| code := Some "invalid_json";
                                  reason := errorCodes.invalid_json;
                                  raw := RawValue er |}];
       completion := Done |}.
Proof.
  intros Hv He Ht Hp. apply routed_outcome.
  exact (routed_invalid_json _ _ _ _ err parsed er Hv He Ht Hp).
Qed.

Lemma invalid_json_reported_witness :
  receiveRequest
    (Sample.accepting (inr (Sample.Error "Unexpected token h in JSON at position 0"))
                      Sample.ok_response)
    Sample.notification Sample.all_handlers "" =
    {| handler_field := "";
       events := [Call_onError
                    {| code := Some "invalid_json";
                       reason := errorCodes.invalid_json;
                       raw := RawValue
                                (Sample.Error
                                   "Unexpected token h in JSON at position 0") |}];
       completion := Done |}.
Proof.
  apply (invalid_json_reported
           (Sample.accepting
              (inr (Sample.Error "Unexpected token h in JSON at position 0"))
              Sample.ok_response)
           Sample.notification Sample.all_handlers "" JNull Sample.notification);
    reflexivity.
Defined.

Lemma non_200_reported_witness :
  receiveRequest (Sample.accepting (inl (JObj [])) Sample.forbidden_response)
                 Sample.confirmation Sample.only_onError "" =
    {| handler_field := "";
       events :=
         [ Call_request (confirmation_url Sample.confirmation);
           Call_onError
             (confirmation_error JNull (JObj [("statusCode", JNum 403%float)])
                                 (JStr "Forbidden")) ];
       completion := Done |}.
Proof.
  assert (Hu : confirmation_url Sample.confirmation <> "") by discriminate.
  apply (non_200_reported
           (Sample.accepting (inl (JObj [])) Sample.forbidden_response)
           Sample.confirmation Sample.only_onError "" JNull Sample.confirmation
           JNull (JObj [("statusCode", JNum 403%float)]) (JStr "Forbidden")
           (JNum 403%float)
           eq_refl eq_refl eq_refl Hu eq_refl eq_refl eq_refl).
Defined.

Lemma unknown_message_reported_witness :
  receiveRequest
    (Sample.accepting (inl (Sample.drs_message "FooBar" [])) Sample.ok_response)
    Sample.notification Sample.all_handlers "" =
    {| handler_field := "";
       events := [Call_onError {| code := Some "unknown_message";
                                  reason := errorCodes.unknown_message;
                                  raw := RawMessage (JStr "FooBar") |}];
       completion := Done |}.
Proof.
  apply (unknown_message_reported
           (Sample.accepting (inl (Sample.drs_message "FooBar" [])) Sample.ok_response)
           Sample.notification Sample.all_handlers "" Sample.notification
           (Sample.drs_message "FooBar" []) (JStr "FooBar")).
  - exists JNull. repeat split.
  - reflexivity.
  - reflexivity.
  - reflexivity.
  - reflexivity.
Defined.

(** X9. A classified notification whose handler is defined and whose
    arguments can be built is answered by exactly one call, of that
    handler, with the customer id, the model id, the serial number, the
    argument built for its type and the unwrapped message, in that order;
    [onError] is not called and the shared template is left as it was. *)
Theorem handler_invoked
    env body handlers handler0 parsed payload message fields ev :
  delivers env body parsed payload ->
  classified payload message ->
  extract message = inl fields ->
  invokes handlers message fields ev ->
  receiveRequest env body handlers handler0 =
    {| handler_field := handler0; events := [ev]; completion := Done |}.
Proof.
  intros Hd Hc Hx Hi. apply routed_outcome.
  exact (routed_handler _ _ _ _ parsed payload message fields ev Hd Hc Hx Hi).
Qed.

Lemma handler_invoked_witness :
  receiveRequest
    (Sample.accepting (inl Sample.wrapped_twice) Sample.ok_response)
    Sample.notification Sample.all_handlers "" =
    {| handler_field := "";
       events := [Call_onDeviceRegistered
                    (JStr "C1") (JStr "M1") (JStr "S1")
                    (Sample.drs_message "DeviceRegisteredNotification" [])];
       completion := Done |}.
Proof.
  apply (handler_invoked
           (Sample.accepting (inl Sample.wrapped_twice) Sample.ok_response)
           Sample.notification Sample.all_handlers ""
           Sample.notification Sample.wrapped_twice
           (Sample.drs_message "DeviceRegisteredNotification" [])
           {| serialNumber := JStr "S1"; modelId := JStr "M1";
              messageType := JStr "DeviceRegisteredNotification";
              customerId := JStr "C1" |}).
  - exists JNull. repeat split.
  - apply (classified_nested _ "default"); reflexivity.
  - reflexivity.
  - apply invokes_onDeviceRegistered; reflexivity.
Defined.

(** ** What the handlers are called with *)

Lemma extract_fields message fields :
  extract message = inl fields ->
  get_path message ["deviceInfo"; "deviceIdentifier"; "serialNumber"]
    = inl (serialNumber fields) /\
  get_path message ["deviceInfo"; "productIdentifier"; "modelId"]
    = inl (modelId fields) /\
  get_path message ["notificationInfo"; "notificationType"]
    = inl (messageType fields) /\
  get_path message ["customerInfo"; "directedCustomerId"]
    = inl (customerId fields).
Proof.
  unfold extract, bindE.
  destruct (get_path message ["deviceInfo"; "deviceIdentifier"; "serialNumber"]);
    [| discriminate].
  destruct (get_path message ["deviceInfo"; "productIdentifier"; "modelId"]);
    [| discriminate].
  destruct (get_path message ["notificationInfo"; "notificationType"]);
    [| discriminate].
  destruct (get_path message ["customerInfo"; "directedCustomerId"]);
    [| discriminate].
  intros H. injection H as <-. auto.
Qed.

Lemma orderInfo_field_value message k v :
  orderInfo_field message k = inl v ->
  exists x, get_path message ["orderInfo"; k] = inl x /\ v = or_empty x.
Proof.
  unfold orderInfo_field, bindE, or_empty.
  destruct (get_path message ["orderInfo"; k]) as [x|] eqn:Hx; [| discriminate].
  intros H. exists x. split; [reflexivity |].
  revert H. destruct (truthy x); congruence.
Qed.

Lemma build_orderInfo_fields message orderInfo :
  build_orderInfo message = inl orderInfo ->
  orderInfo_field message "instanceId" = inl (instanceId orderInfo) /\
  orderInfo_field message "slotId" = inl (slotId orderInfo) /\
  get_path message ["orderInfo"; "productInfo"] = inl (productInfo orderInfo).
Proof.
  unfold build_orderInfo, bindE.
  destruct (orderInfo_field message "instanceId") as [i|]; [| discriminate].
  destruct (orderInfo_field message "slotId") as [s|]; [| discriminate].
  destruct (get_path message ["orderInfo"; "productInfo"]) as [p|]; [| discriminate].
  intros H. injection H as <-. auto.
Qed.

(** Going through the events of a call, path by path. *)
Ltac by_event env body handlers handler0 Hin :=
  by_path env body handlers handler0;
  try match goal with
      | H : confirms _ _ _ _ _ |- _ => inversion H; subst
      end;
  simpl in Hin;
  repeat match goal with
         | H : _ \/ _ |- _ => destruct H
         | H : False |- _ => destruct H
         end;
  try match goal with
      | H : (if ?c then _ else _) = _ |- _ => destruct c
      end;
  subst.

(** X10. Whatever notification handler [receiveRequest] calls, the first
    three arguments are the [customerInfo.directedCustomerId], the
    [deviceInfo.productIdentifier.modelId] and the
    [deviceInfo.deviceIdentifier.serialNumber] of the message passed as the
    last argument, and that message is what the unwrapper handed on: the
    value under the transport key when the payload was wrapped, not the
    wrapper. *)
Theorem handler_arguments_are_the_fields
    env body handlers handler0 ev customerId modelId serialNumber raw :
  In ev (events (receiveRequest env body handlers handler0)) ->
  notification_call ev = Some (customerId, modelId, serialNumber, raw) ->
  get_path raw ["customerInfo"; "directedCustomerId"] = inl customerId /\
  get_path raw ["deviceInfo"; "productIdentifier"; "modelId"] = inl modelId /\
  get_path raw ["deviceInfo"; "deviceIdentifier"; "serialNumber"] = inl serialNumber /\
  exists parsed payload,
    delivers env body parsed payload /\ classified payload raw.
Proof.
  intros Hin Hcall. by_event env body handlers handler0 Hin;
    simpl in Hcall; try discriminate.
  match goal with
  | Hx : extract _ = inl _, Hi : invokes _ _ _ _ |- _ =>
      destruct (extract_fields _ _ Hx) as (Hs & Hm & _ & Hc);
      inversion Hi; subst; simpl in Hcall;
      injection Hcall as <- <- <- <-
  end; eauto 10.
Qed.

Lemma handler_arguments_are_the_fields_witness :
  get_path (Sample.drs_message "DeviceRegisteredNotification" [])
           ["customerInfo"; "directedCustomerId"] = inl (JStr "C1") /\
  get_path (Sample.drs_message "DeviceRegisteredNotification" [])
           ["deviceInfo"; "productIdentifier"; "modelId"] = inl (JStr "M1") /\
  get_path (Sample.drs_message "DeviceRegisteredNotification" [])
           ["deviceInfo"; "deviceIdentifier"; "serialNumber"] = inl (JStr "S1") /\
  exists parsed payload,
    delivers (Sample.accepting (inl Sample.wrapped_twice) Sample.ok_response)
             Sample.notification parsed payload /\
    classified payload (Sample.drs_message "DeviceRegisteredNotification" []).
Proof.
  apply (handler_arguments_are_the_fields
           (Sample.accepting (inl Sample.wrapped_twice) Sample.ok_response)
           Sample.notification Sample.all_handlers ""
           (Call_onDeviceRegistered
              (JStr "C1") (JStr "M1") (JStr "S1")
              (Sample.drs_message "DeviceRegisteredNotification" []))).
  - simpl. left. reflexivity.
  - reflexivity.
Defined.

(** X11. The order argument of [onItemShippedNotification] and of
    [onOrderPlaced] carries the [orderInfo.productInfo] of the message as
    it is, whatever it holds: [undefined] when the message has none. *)
Theorem order_products_pass_through
    env body handlers handler0 ev customerId modelId serialNumber orderInfo raw :
  In ev (events (receiveRequest env body handlers handler0)) ->
  ev = Call_onItemShippedNotification customerId modelId serialNumber orderInfo raw \/
  ev = Call_onOrderPlaced customerId modelId serialNumber orderInfo raw ->
  get_path raw ["orderInfo"; "productInfo"] = inl (productInfo orderInfo).
Proof.
  intros Hin. by_event env body handlers handler0 Hin;
    try (intros [Hev | Hev]; discriminate).
  match goal with
  | Hi : invokes _ _ _ _ |- _ =>
      inversion Hi; subst; intros [Hev | Hev]; try discriminate;
      injection Hev as <- <- <- <- <-
  end;
  match goal with
  | Hb : build_orderInfo _ = inl _ |- _ =>
      exact (proj2 (proj2 (build_orderInfo_fields _ _ Hb)))
  end.
Qed.

Lemma order_products_pass_through_witness :
  get_path Sample.order_placed ["orderInfo"; "productInfo"] =
    inl (productInfo {| instanceId := JStr "I1"; slotId := JStr "SL1";
                        productInfo := JArr [JObj [("asin", JStr "A1")]] |}).
Proof.
  apply (order_products_pass_through
           (Sample.accepting (inl Sample.order_placed) Sample.ok_response)
           Sample.notification Sample.all_handlers ""
           (Call_onOrderPlaced
              (JStr "C1") (JStr "M1") (JStr "S1")
              {| instanceId := JStr "I1"; slotId := JStr "SL1";
                 productInfo := JArr [JObj [("asin", JStr "A1")]] |}
              Sample.order_placed)
           (JStr "C1") (JStr "M1") (JStr "S1")).
  - simpl. left. reflexivity.
  - right. reflexivity.
Defined.

(** X12. The [instanceId] and the [slotId] passed to any of the three
    order handlers are those of the message's [orderInfo] when they are
    truthy, and the empty string otherwise: a [null], [false], [0] or
    empty id is replaced like a missing one. *)
Theorem order_ids_default_to_empty
    env body handlers handler0 ev orderInfo raw :
  In ev (events (receiveRequest env body handlers handler0)) ->
  order_call ev = Some (orderInfo, raw) ->
  exists i s,
    get_path raw ["orderInfo"; "instanceId"] = inl i /\
    get_path raw ["orderInfo"; "slotId"] = inl s /\
    instanceId orderInfo = or_empty i /\
    slotId orderInfo = or_empty s.
Proof.
  intros Hin Hcall. by_event env body handlers handler0 Hin;
    simpl in Hcall; try discriminate.
  match goal with
  | Hi : invokes _ _ _ _ |- _ =>
      inversion Hi; subst; simpl in Hcall; try discriminate;
      injection Hcall as <- <-
  end;
  match goal with
  | Hb : build_orderInfo _ = inl _ |- _ =>
      destruct (build_orderInfo_fields _ _ Hb) as (Hi' & Hs' & _)
  | Hb : build_orderInfo_cancelled _ = inl _ |- _ =>
      destruct (build_orderInfo_cancelled_fields _ _ Hb) as (Hi' & Hs' & _)
  end;
  destruct (orderInfo_field_value _ _ _ Hi') as (i & Hgi & Hvi);
  destruct (orderInfo_field_value _ _ _ Hs') as (s & Hgs & Hvs);
  exists i, s; auto.
Qed.

Lemma order_ids_default_to_empty_witness :
  exists i s,
    get_path Edge.falsy_ids ["orderInfo"; "instanceId"] = inl i /\
    get_path Edge.falsy_ids ["orderInfo"; "slotId"] = inl s /\
    instanceId {| instanceId := JStr ""; slotId := JStr "";
                  productInfo := JUndefined |} = or_empty i /\
    slotId {| instanceId := JStr ""; slotId := JStr "";
              productInfo := JUndefined |} = or_empty s.
Proof.
  apply (order_ids_default_to_empty
           (Sample.accepting (inl Edge.falsy_ids) Sample.ok_response)
           Sample.notification Sample.all_handlers ""
           (Call_onOrderPlaced
              (JStr "C1") (JStr "M1") (JStr "S1")
              {| instanceId := JStr ""; slotId := JStr "";
                 productInfo := JUndefined |}
              Edge.falsy_ids)).
  - simpl. left. reflexivity.
  - reflexivity.
Defined.



(** ** What [receiveRequest] never does *)

(** X14. [receiveRequest] requests a URL only for a verified confirmation
    envelope with a usable [SubscribeURL], only that URL, once, and before
    any callback is called. *)
Theorem request_only_to_confirm env body handlers handler0 url :
  In (Call_request url) (events (receiveRequest env body handlers handler0)) ->
  (exists err parsed,
      validator_validate env body = (err, parsed) /\
      truthy err = false /\
      (Type_ parsed =? "SubscriptionConfirmation") = true /\
      confirmation_url parsed <> "" /\
      url = confirmation_url parsed) /\
  exists report,
    events (receiveRequest env body handlers handler0) = Call_request url :: report /\
    ~ In (Call_request url) report.
Proof.
  intros Hin. by_event env body handlers handler0 Hin; try discriminate.
  all: try solve [ match goal with
                   | Hi : invokes _ _ _ (Call_request _) |- _ => inversion Hi
                   end ].
  all: match goal with
       | H : Call_request _ = Call_request _ |- _ => injection H as <-
       end.
  all: split; [eauto 10 |].
  all: eexists; split; [reflexivity |]; simpl; intuition discriminate.
Qed.

Lemma request_only_to_confirm_witness :
  (exists err parsed,
      validator_validate
        (Sample.accepting (inl (JObj [])) Sample.forbidden_response)
        Sample.confirmation = (err, parsed) /\
      truthy err = false /\
      (Type_ parsed =? "SubscriptionConfirmation") = true /\
      confirmation_url parsed <> "" /\
      confirmation_url Sample.confirmation = confirmation_url parsed) /\
  exists report,
    events (receiveRequest
              (Sample.accepting (inl (JObj [])) Sample.forbidden_response)
              Sample.confirmation Sample.only_onError "") =
      Call_request (confirmation_url Sample.confirmation) :: report /\
    ~ In (Call_request (confirmation_url Sample.confirmation)) report.
Proof.
  apply (request_only_to_confirm
           (Sample.accepting (inl (JObj [])) Sample.forbidden_response)
           Sample.confirmation Sample.only_onError ""
           (confirmation_url Sample.confirmation)).
  simpl. left. reflexivity.
Defined.

(** X15. A verified confirmation envelope is never dispatched: whatever
    its [Message] holds and whatever the GET answers, no handler of the
    set other than [onError] is called. *)
Theorem confirmation_never_dispatched env body handlers handler0 err parsed ev :
  validator_validate env body = (err, parsed) ->
  (Type_ parsed =? "SubscriptionConfirmation") = true ->
  In ev (events (receiveRequest env body handlers handler0)) ->
  handler_invocation ev = false.
Proof.
  intros Hv Ht Hin. by_event env body handlers handler0 Hin; try reflexivity.
  all: match goal with
       | Hd : delivers _ _ _ _ |- _ =>
           destruct Hd as (err' & Hv' & _ & Ht' & _);
           rewrite Hv in Hv'; injection Hv' as <- <-; congruence
       end.
Qed.

Lemma confirmation_never_dispatched_witness :
  handler_invocation
    (Call_request (confirmation_url Sample.confirmation)) = false.
Proof.
  apply (confirmation_never_dispatched
           (Sample.accepting (inl Sample.order_placed) Sample.ok_response)
           Sample.confirmation Sample.all_handlers "" JNull Sample.confirmation).
  - reflexivity.
  - reflexivity.
  - simpl. left. reflexivity.
Defined.

(** X16. [receiveRequest] never calls [onOnlyValidateMessage], defined or
    not, nor a plain callback: the validate-only handler is used by
    [validate] alone. *)
Theorem never_validate_only env body handlers handler0 ev :
  In ev (events (receiveRequest env body handlers handler0)) ->
  validate_only_call ev = false.
Proof.
  intros Hin. by_event env body handlers handler0 Hin; try reflexivity.
  match goal with
  | Hi : invokes _ _ _ _ |- _ => inversion Hi; reflexivity
  end.
Qed.

Lemma never_validate_only_witness :
  validate_only_call
    (Call_onDeviceRegistered
       (JStr "C1") (JStr "M1") (JStr "S1")
       (Sample.drs_message "DeviceRegisteredNotification" [])) = false.
Proof.
  apply (never_validate_only
           (Sample.accepting (inl Sample.wrapped_twice) Sample.ok_response)
           Sample.notification Sample.all_handlers "").
  simpl. left. reflexivity.
Defined.

(** ** The errors reported *)

(** X17. Every error [receiveRequest] reports carries one of the seven
    codes of [errorCodes], together with the reason that table gives for
    that code. *)
Theorem reported_errors_are_in_errorCodes env body handlers handler0 error :
  In (Call_onError error) (events (receiveRequest env body handlers handler0)) ->
  exists c, code error = Some c /\ In (c, reason error) errorCodes_table.
Proof.
  intros Hin. by_event env body handlers handler0 Hin; try discriminate.
  all: try solve [ match goal with
                   | Hi : invokes _ _ _ (Call_onError _) |- _ => inversion Hi
                   end ].
  all: match goal with
       | H : Call_onError _ = Call_onError _ |- _ => injection H as <-
       end.
  all: eexists; split; [reflexivity |]; simpl; tauto.
Qed.

Lemma reported_errors_are_in_errorCodes_witness :
  exists c,
    code (missing_handler_error "onOrderPlaced") = Some c /\
    In (c, reason (missing_handler_error "onOrderPlaced")) errorCodes_table.
Proof.
  apply (reported_errors_are_in_errorCodes
           (Sample.accepting (inl Sample.order_placed) Sample.ok_response)
           Sample.notification Sample.only_onError "").
  simpl. left. reflexivity.
Defined.

(** ** The shared error template *)

(** X18. [receiveRequest] writes to the shared [missingHandlerError]
    template on one path only: when it reports a missing handler, and then
    it writes the name of that handler.  On every other path the template
    is left as the call found it. *)
Theorem template_written_only_with_report env body handlers handler0 :
  handler_field (receiveRequest env body handlers handler0) = handler0 \/
  exists type defined name,
    In (type, defined, name) handler_table /\
    defined handlers = false /\
    handler_field (receiveRequest env body handlers handler0) = name /\
    events (receiveRequest env body handlers handler0)
      = [Call_onError (missing_handler_error name)].
Proof.
  by_path env body handlers handler0; try (left; reflexivity).
  right. eauto 10.
Qed.

Lemma routed_elsewhere env body handlers handler0 handler1 o :
  routed env body handlers handler0 o ->
  exists o',
    routed env body handlers handler1 o' /\
    events o' = events o /\ completion o' = completion o.
Proof.
  intros [ err parsed Hv He
         | err parsed report c Hv He Ht Hc
         | err parsed er Hv He Ht Hp
         | parsed payload Hd Hn
         | parsed payload t Hd Hn Hf Hdisc Hk
         | parsed payload Hd Hn Hf Hdisc
         | parsed payload message e Hd Hc Hx
         | parsed payload message fields ev Hd Hc Hx Hi
         | parsed payload message fields e Hd Hc Hx Ha
         | parsed payload message fields ty df nm Hd Hc Hx Hty Hin Hdf
         | parsed payload message fields Hd Hc Hx Hk ];
    eexists.
  - split; [exact (routed_invalid_signature _ _ _ _ err parsed Hv He) | split; reflexivity].
  - split; [exact (routed_confirmation _ _ _ _ err parsed _ _ Hv He Ht Hc) | split; reflexivity].
  - split; [exact (routed_invalid_json _ _ _ _ err parsed er Hv He Ht Hp) | split; reflexivity].
  - split; [exact (routed_unwrap_faults _ _ _ _ parsed payload Hd Hn) | split; reflexivity].
  - split; [exact (routed_unknown_message _ _ _ _ parsed payload t Hd Hn Hf Hdisc Hk) | split; reflexivity].
  - split; [exact (routed_non_drs _ _ _ _ parsed payload Hd Hn Hf Hdisc) | split; reflexivity].
  - split; [exact (routed_extract_faults _ _ _ _ parsed payload message e Hd Hc Hx) | split; reflexivity].
  - split; [exact (routed_handler _ _ _ _ parsed payload message fields ev Hd Hc Hx Hi) | split; reflexivity].
  - split; [exact (routed_argument_faults _ _ _ _ parsed payload message fields e Hd Hc Hx Ha) | split; reflexivity].
  - split; [exact (routed_missing_handler _ _ _ _ parsed payload message fields ty df nm
             Hd Hc Hx Hty Hin Hdf) | split; reflexivity].
  - split; [exact (routed_dropped _ _ _ _ parsed payload message fields Hd Hc Hx Hk) | split; reflexivity].
Qed.

(** X19. What an earlier call left in the shared template never shows in
    a later one: the events of a call, the errors it reports included, and
    its completion are the same whatever [missingHandlerError.raw.handler]
    held when the call began. *)
Theorem earlier_template_never_shows env body handlers handler0 handler1 :
  events (receiveRequest env body handlers handler0)
    = events (receiveRequest env body handlers handler1) /\
  completion (receiveRequest env body handlers handler0)
    = completion (receiveRequest env body handlers handler1).
Proof.
  destruct (routed_elsewhere env body handlers handler0 handler1 _
              (receiveRequest_routed env body handlers handler0))
    as (o' & Hr & He & Hc).
  rewrite (routed_outcome _ _ _ _ _ Hr). auto.
Qed.

(** ** Faults *)

(** X20. A verified notification whose [Message] parses to [null] makes
    the callback throw at the first test of the unwrapper, reading
    [default]: nothing is reported and [onNonDRSMessage] is not called. *)
Theorem null_payload_throws env body handlers handler0 parsed payload :
  delivers env body parsed payload ->
  nullish payload = true ->
  receiveRequest env body handlers handler0 =
    {| handler_field := handler0; events := [];
       completion := Threw (TypeError "default") |}.
Proof.
  intros Hd Hn. apply routed_outcome.
  exact (routed_unwrap_faults _ _ _ _ parsed payload Hd Hn).
Qed.

Lemma null_payload_throws_witness :
  receiveRequest (Sample.accepting (inl JNull) Sample.ok_response)
                 Sample.notification Sample.all_handlers "" =
    {| handler_field := ""; events := [];
       completion := Threw (TypeError "default") |}.
Proof.
  apply (null_payload_throws
           (Sample.accepting (inl JNull) Sample.ok_response)
           Sample.notification Sample.all_handlers "" Sample.notification JNull).
  - exists JNull. repeat split.
  - reflexivity.
Defined.



(** The same notification with no [onOrderPlaced]: reported, not thrown. *)
Example no_orderInfo_no_handler :
  receiveRequest (Sample.accepting (inl Edge.no_orderInfo) Sample.ok_response)
                 Sample.notification Sample.only_onError "" =
    {| handler_field := "onOrderPlaced";
       events := [Call_onError (missing_handler_error "onOrderPlaced")];
       completion := Done |}.
Proof. reflexivity. Qed.

(** ** Payloads that are not objects *)

(** X22. A [Message] that is valid JSON and not an object (a string, a
    number, a boolean or an array) is handled as a non-DRS message:
    [onNonDRSMessage] gets the verified envelope, or, without that
    handler, [not_drs] is reported.  It is never reported as
    [invalid_json] and never makes the callback throw. *)
Theorem non_object_payload_is_not_drs
    env body handlers handler0 parsed payload :
  delivers env body parsed payload ->
  not_an_object payload = true ->
  receiveRequest env body handlers handler0 =
    {| handler_field := handler0;
       events := [if onNonDRSMessage handlers
                  then Call_onNonDRSMessage parsed
                  else Call_onError {| code := Some "not_drs";
                                       reason := errorCodes.not_drs;
                                       raw := RawBody parsed |}];
       completion := Done |}.
Proof.
  intros Hd Hp. apply routed_outcome.
  apply (routed_non_drs _ _ _ _ parsed payload Hd);
    destruct payload; try discriminate Hp; reflexivity.
Qed.

Lemma non_object_payload_is_not_drs_witness :
  receiveRequest (Sample.accepting (inl (JStr "hello")) Sample.ok_response)
                 Sample.notification Sample.all_handlers "" =
    {| handler_field := "";
       events := [Call_onNonDRSMessage Sample.notification];
       completion := Done |}.
Proof.
  apply (non_object_payload_is_not_drs
           (Sample.accepting (inl (JStr "hello")) Sample.ok_response)
           Sample.notification Sample.all_handlers ""
           Sample.notification (JStr "hello")).
  - exists JNull. repeat split.
  - reflexivity.
Defined.

(** ** The dispatch chain *)

(** X23. The dispatch chain of lines 210-267 handles exactly the types of
    [knownMessageTypes]: it falls off its end, with no call and no report,
    if and only if the type is outside that list, whatever the handler set
    and the message are. *)
Theorem dispatch_handles_exactly_the_known
    handlers message customerId modelId serialNumber t s :
  known t = false <->
  dispatch handlers message customerId modelId serialNumber t s = (s, Next tt).
Proof.
  split; [apply dispatch_unknown |].
  intros H. destruct (known t) eqn:Hk; [exfalso | reflexivity].
  rewrite known_tests in Hk. unfold dispatch in H.
  repeat match type of H with
         | context [if strict_eq_string t ?n then _ else _] =>
             destruct (strict_eq_string t n)
         end;
    try discriminate Hk;
    cbv beta iota delta [bind ret throw return_ when prop path return_onError
                         return_missing_handler set_missing_handler
                         missingHandlerError call lift] in H;
    repeat match type of H with
           | context [if ?c then _ else _] => destruct c
           | context [match ?r with inl _ => _ | inr _ => _ end] => destruct r
           end;
    discriminate H.
Qed.

(** X24. Once a notification is verified, the outcome of the call depends
    on the message the unwrapper hands on and on the handler set, and on
    nothing else: two envelopes that yield the same message, one wrapped
    under a transport key and one not, are dispatched identically. *)
Theorem outcome_depends_on_message
    env1 body1 parsed1 payload1 env2 body2 parsed2 payload2
    handlers handler0 message :
  delivers env1 body1 parsed1 payload1 ->
  classified payload1 message ->
  delivers env2 body2 parsed2 payload2 ->
  classified payload2 message ->
  receiveRequest env1 body1 handlers handler0 =
    receiveRequest env2 body2 handlers handler0.
Proof.
  intros Hd1 Hc1 Hd2 Hc2.
  rewrite (receiveRequest_delivered _ _ _ _ _ _ Hd1),
          (receiveRequest_delivered _ _ _ _ _ _ Hd2).
  unfold run, bind.
  rewrite (unwrap_classified _ _ _ _ _ Hc1), (unwrap_classified _ _ _ _ _ Hc2).
  reflexivity.
Qed.

Lemma outcome_depends_on_message_witness :
  receiveRequest (Sample.accepting (inl Sample.wrapped_twice) Sample.ok_response)
                 Sample.notification Sample.all_handlers "" =
  receiveRequest
    (Sample.accepting (inl (Sample.drs_message "DeviceRegisteredNotification" []))
                      Sample.forbidden_response)
    (Sample.envelope "Notification" (Some "https://example.com/"))
    Sample.all_handlers "".
Proof.
  apply (outcome_depends_on_message
           (Sample.accepting (inl Sample.wrapped_twice) Sample.ok_response)
           Sample.notification Sample.notification Sample.wrapped_twice
           (Sample.accepting
              (inl (Sample.drs_message "DeviceRegisteredNotification" []))
              Sample.forbidden_response)
           (Sample.envelope "Notification" (Some "https://example.com/"))
           (Sample.envelope "Notification" (Some "https://example.com/"))
           (Sample.drs_message "DeviceRegisteredNotification" [])
           Sample.all_handlers ""
           (Sample.drs_message "DeviceRegisteredNotification" [])).
  - exists JNull. repeat split.
  - apply (classified_nested _ "default"); reflexivity.
  - exists JNull. repeat split.
  - apply (classified_direct _ (JStr "DeviceRegisteredNotification")); reflexivity.
Defined.

(** ** Wrapped payloads *)

Lemma delivers_unique env body parsed1 payload1 parsed2 payload2 :
  delivers env body parsed1 payload1 ->
  delivers env body parsed2 payload2 ->
  parsed1 = parsed2 /\ payload1 = payload2.
Proof.
  intros (e1 & Hv1 & _ & _ & Hp1) (e2 & Hv2 & _ & _ & Hp2).
  rewrite Hv1 in Hv2. injection Hv2 as _ <-.
  rewrite Hp1 in Hp2. injection Hp2 as <-. auto.
Qed.

(** X25. Once a transport key of the payload holds device info, what the
    payload holds beside it no longer counts: [onNonDRSMessage] is not
    called, and the only error the call can report is [missing_handler];
    [unknown_message], [not_drs] and [invalid_json] are never reported
    for such a payload. *)
Theorem wrapper_shadows_the_rest env body handlers handler0 parsed payload k ev :
  delivers env body parsed payload ->
  first_transport payload = Some k ->
  In ev (events (receiveRequest env body handlers handler0)) ->
  (forall envelope, ev <> Call_onNonDRSMessage envelope) /\
  (forall error, ev = Call_onError error -> code error = Some "missing_handler").
Proof.
  intros Hd Hf Hin.
  pose proof Hd as (err & Hv & He & Ht & Hp).
  by_event env body handlers handler0 Hin.
  all: try match goal with
           | Hv' : validator_validate _ _ = (_, _) |- _ =>
               rewrite Hv in Hv'; injection Hv' as <- <-; congruence
           end.
  all: try match goal with
           | Hd' : delivers _ _ _ _ |- _ =>
               destruct (delivers_unique _ _ _ _ _ _ Hd Hd') as [<- <-]; congruence
           end.
  - match goal with
    | Hi : invokes _ _ _ _ |- _ =>
        inversion Hi; split; intros; discriminate
    end.
  - split; intros; [discriminate |].
    match goal with
    | H : Call_onError _ = Call_onError _ |- _ => injection H as <-
    end.
    reflexivity.
Qed.

Lemma wrapper_shadows_the_rest_witness :
  (forall envelope,
      Call_onDeviceRegistered
        (JStr "C1") (JStr "M1") (JStr "S1")
        (Sample.drs_message "DeviceRegisteredNotification" [])
        <> Call_onNonDRSMessage envelope) /\
  (forall error,
      Call_onDeviceRegistered
        (JStr "C1") (JStr "M1") (JStr "S1")
        (Sample.drs_message "DeviceRegisteredNotification" [])
        = Call_onError error ->
      code error = Some "missing_handler").
Proof.
  apply (wrapper_shadows_the_rest
           (Sample.accepting (inl Edge.wrapped_beside_unknown) Sample.ok_response)
           Sample.notification Sample.all_handlers ""
           Sample.notification Edge.wrapped_beside_unknown "https").
  - exists JNull. repeat split.
  - reflexivity.
  - simpl. left. reflexivity.
Defined.

(** ** Known types *)

(** X26. A discriminator passes the membership test of line 180 exactly
    when it is a string equal to one of the six names of
    [knownMessageTypes]: the test is by strict equality, so a number, a
    boolean, an array or an object never passes it. *)
Theorem known_iff_listed t :
  known t = true <-> exists name, In name knownMessageTypes /\ t = JStr name.
Proof.
  rewrite known_tests. split.
  - intros H.
    repeat match type of H with
           | context [strict_eq_string t ?n] =>
               let E := fresh "E" in
               destruct (strict_eq_string t n) eqn:E;
               [ apply strict_eq_string_true in E; exists n; split;
                 [simpl; tauto | exact E] |]
           end.
    discriminate.
  - intros (name & Hin & ->). simpl in Hin.
    repeat (destruct Hin as [<- | Hin]; [reflexivity |]).
    contradiction.
Qed.

(** A subscription change is passed the status object of its
    [subscriptionInfo]. *)
Example subscription_changed_scenario :
  events (receiveRequest (Sample.accepting (inl Edge.subscribed) Sample.ok_response)
                         Sample.notification Sample.all_handlers "") =
    [Call_onSubscriptionChanged
       (JStr "C1") (JStr "M1") (JStr "S1")
       (JObj [("SL1", JBool true)]) Edge.subscribed].
Proof. reflexivity. Qed.
